(** * Orchestration layer of the example dapp (src/example-dapp/src/App.tsx)

    A shallow embedding of the use-case handlers of [StatelessApp] and of the
    [autoSignIn] callback of [App].  The handlers are asynchronous TypeScript
    functions that call helpers imported from './utils', the wallet adapter
    and the network connection; they are embedded in a state-and-exception
    monad whose state holds the React [logs] state, the trace of observable
    steps and the state of the outside world (wallet, network, helpers).

    The file App.tsx is present in two revisions; the later one (with the
    transaction use-cases) is the one embedded.  The handlers the two
    revisions share are textually identical. *)

From Stdlib Require Import Strings.String Strings.Ascii Strings.Byte Lists.List Bool Arith Lia.
From Stdlib Require DecimalString.
Import ListNotations.
Open Scope string_scope.

Set Implicit Arguments.

(* ------------------------------------------------------------------------- *)
(** ** Data model *)
(* ------------------------------------------------------------------------- *)

(** [TLog] of './types': the structured entry shown by the log panel. *)
Inductive Status : Type := info | success | warning | error.

Record TLog : Type := mkLog {
  status : Status;
  method : string;
  message : string
}.

Definition Status_eqb (a b : Status) : bool :=
  match a, b with
  | info, info | success, success | warning, warning | error, error => true
  | _, _ => false
  end.

(** A thrown JavaScript [Error]; the handlers read only [error.message]. *)
Record Error : Type := mkError { error_message : string }.

(** The outcome of an awaited call: [inl e] when it throws (or its promise
    rejects), [inr v] when it returns [v]. *)
Definition Result (A : Type) : Type := (Error + A)%type.

(** Values owned by the wallet adapter and by @solana/web3.js are opaque to
    the handlers, which only pass them on or print them.  A transaction and
    a signed payload are represented by the text [JSON.stringify] prints. *)
Definition PublicKey := string.      (* base58 text *)
Definition Wallet := string.
Definition Connection := string.     (* RPC endpoint *)
Definition Blockhash := string.
Definition Signature := string.      (* transaction identifier *)
Definition Address := string.        (* lookup table address, base58 text *)
Definition Uint8Array := list byte.

Record Transaction : Type := mkTx { tx_json : string }.
Record SignedTransaction : Type := mkSignedTx { signed_tx_json : string }.
Record SignedMessage : Type := mkSignedMessage { signed_message_json : string }.
Record SolanaSignInInput : Type := mkSignInInput { sign_in_input_json : string }.
Record WalletAccount : Type := mkAccount { address : string }.
Record SolanaSignInOutput : Type := mkSignInOutput {
  account : WalletAccount;
  signedMessage : Uint8Array;
  signature : Uint8Array
}.
Record BlockhashWithExpiryBlockHeight : Type := mkBlockhash {
  blockhash : Blockhash;
  lastValidBlockHeight : nat
}.

(** A signing method handed out by [useWallet]; [None] when the connected
    wallet does not offer it. *)
Definition Capability := option string.

(** What [useWallet()] and [useConnection()] give to [StatelessApp]. *)
Record Props : Type := mkProps {
  wallet : option Wallet;
  publicKey : option PublicKey;
  signMsg : Capability;
  siws : Capability;
  signTx : Capability;
  signAllTx : Capability;
  sendTx : Capability;
  connection : Connection
}.

(** An adapter given to [autoSignIn]; ['signIn' in adapter] is a test for the
    presence of the property. *)
Record Adapter : Type := mkAdapter {
  adapter_name : string;
  has_signIn : bool
}.

(* ------------------------------------------------------------------------- *)
(** ** Printing helpers used inside the template literals *)
(* ------------------------------------------------------------------------- *)

Definition string_of_nat (n : nat) : string :=
  DecimalString.NilEmpty.string_of_uint (Nat.to_uint n).

Definition dquote : string := String (ascii_of_nat 34) EmptyString.

(** [`${bytes}`] on a [Uint8Array]: the decimal values joined by commas. *)
Definition Uint8Array_toString (a : Uint8Array) : string :=
  String.concat "," (map (fun b => string_of_nat (Byte.to_nat b)) a).

(** [JSON.stringify] on a [Uint8Array]: an object keyed by index. *)
Fixpoint Uint8Array_fields (i : nat) (a : Uint8Array) : list string :=
  match a with
  | [] => []
  | b :: rest =>
      (dquote ++ string_of_nat i ++ dquote ++ ":" ++ string_of_nat (Byte.to_nat b))
        :: Uint8Array_fields (S i) rest
  end.

Definition JSON_stringify_Uint8Array (a : Uint8Array) : string :=
  "{" ++ String.concat "," (Uint8Array_fields 0 a) ++ "}".

(** [JSON.stringify] on an array of transactions. *)
Definition JSON_stringify_array (l : list string) : string :=
  "[" ++ String.concat "," l ++ "]".

(** [new TextDecoder().decode(bytes)]; a string here is its UTF-8 bytes. *)
Definition TextDecoder_decode (a : Uint8Array) : string :=
  string_of_list_byte a.

Module Constants.
Definition message : string :=
  "To avoid digital dognappers, sign below to authenticate with CryptoCorgis.".
End Constants.

(* ------------------------------------------------------------------------- *)
(** ** The log state: [useState<TLog[]>([])] and [createLog] *)
(* ------------------------------------------------------------------------- *)

(** A functional update passed to [setLogs]. *)
Definition Updater : Type := list TLog -> list TLog.

(** [setLogs(f)] with a function argument: React replaces the state by [f]
    applied to the latest state. *)
Definition setLogs (f : Updater) (logs : list TLog) : list TLog := f logs.

(** [createLog = (log) => setLogs((logs) => [...logs, log])]. *)
Definition createLog (log : TLog) : Updater :=
  setLogs (fun logs => (logs ++ [log])%list).

(** [clearLogs = () => setLogs([])]. *)
Definition clearLogs : Updater := fun _ => [].

(** React keeps the updaters queued between two renders and applies them in
    the order they were queued, each to the result of the one before. *)
Definition processQueue (queue : list Updater) (logs : list TLog) : list TLog :=
  fold_left (fun st f => f st) queue logs.

(* ------------------------------------------------------------------------- *)
(** ** Calls that leave the component *)
(* ------------------------------------------------------------------------- *)

(** One constructor per function the handlers call outside App.tsx, with the
    arguments of the call sites; the index is the type of the value the call
    gives back. *)
Inductive Call : Type -> Type :=
| createTransferTransaction (publicKey : PublicKey) (connection : Connection)
    : Call Transaction
| createTransferTransactionV0 (publicKey : PublicKey) (connection : Connection)
    : Call Transaction
| getLatestBlockhash (connection : Connection)
    : Call BlockhashWithExpiryBlockHeight
| createAddressLookupTable (publicKey : PublicKey) (connection : Connection)
    (sendTx : Capability) (blockhash : Blockhash)
    : Call (Signature * Address)
| extendAddressLookupTable (publicKey : PublicKey) (connection : Connection)
    (blockhash : Blockhash) (lookupTableAddress : Address) (sendTx : Capability)
    : Call Signature
| signAndSendTransactionV0WithLookupTable (publicKey : PublicKey)
    (connection : Connection) (blockhash : Blockhash)
    (lookupTableAddress : Address) (sendTx : Capability)
    : Call Signature
| signAndSendTransaction (transaction : Transaction) (connection : Connection)
    (sendTx : Capability)
    : Call Signature
| signTransaction (transaction : Transaction) (signTx : Capability)
    : Call SignedTransaction
| signAllTransactions (transaction1 transaction2 : Transaction)
    (signAllTx : Capability)
    : Call (list SignedTransaction)
| signMessage (message : string) (signMsg : Capability)
    : Call SignedMessage
| signIn (signInData : SolanaSignInInput) (siws : Capability)
    : Call SolanaSignInOutput
| createSignInData : Call SolanaSignInInput
| createSignInErrorData : Call SolanaSignInInput
| connect : Call unit
| disconnect : Call unit
| pollSignatureStatus (signature : Signature) (connection : Connection)
    (sink : TLog -> Updater)
    : Call unit
| adapter_signIn (adapter : Adapter) (input : SolanaSignInInput)
    : Call SolanaSignInOutput
| verifySignIn (input : SolanaSignInInput) (output : SolanaSignInOutput)
    : Call bool.

(** Calls that put a request before the external signer. *)
Definition is_dispatch {R} (c : Call R) : bool :=
  match c with
  | createAddressLookupTable _ _ _ _
  | extendAddressLookupTable _ _ _ _ _
  | signAndSendTransactionV0WithLookupTable _ _ _ _ _
  | signAndSendTransaction _ _ _
  | signTransaction _ _
  | signAllTransactions _ _ _
  | signMessage _ _
  | signIn _ _ => true
  | _ => false
  end.

(** The receipt (transaction identifier) a submitting call gives back. *)
Definition receipt_of {R} (c : Call R) : R -> option Signature :=
  match c in Call R return R -> option Signature with
  | createAddressLookupTable _ _ _ _ => fun r => Some (fst r)
  | extendAddressLookupTable _ _ _ _ _ => fun r => Some r
  | signAndSendTransactionV0WithLookupTable _ _ _ _ _ => fun r => Some r
  | signAndSendTransaction _ _ _ => fun r => Some r
  | _ => fun _ => None
  end.

Definition submits {R} (c : Call R) : bool :=
  match c with
  | createAddressLookupTable _ _ _ _
  | extendAddressLookupTable _ _ _ _ _
  | signAndSendTransactionV0WithLookupTable _ _ _ _ _
  | signAndSendTransaction _ _ _ => true
  | _ => false
  end.

(* ------------------------------------------------------------------------- *)
(** ** The monad of the handlers *)
(* ------------------------------------------------------------------------- *)

(** How a call is written at its call site: [await f(...)], or a plain
    [f(...)] whose promise, if it gives one, is not waited for. *)
Inductive CallMode : Type := Awaited | Plain.

Section Orchestration.

(** The world outside the component: its state, and how it answers a
    call.  Nothing is assumed about it: any call may throw. *)
Variable W : Type.
Variable respond : forall R : Type, Call R -> W -> Result R * W.

(** The observable steps of a handler, in the order they happen.  A call
    is recorded with the state of the world in which it was made. *)
Inductive Event : Type :=
| ECall (mode : CallMode) (w : W) (R : Type) (c : Call R) (r : Result R)
| ELog (log : TLog).

(** [logs] is the log as the pushes of the invocation itself leave it.  What
    a poller started by the invocation pushes through its sink, later or
    between two steps of the handler, is not part of a run. *)
Record State : Type := mkState {
  logs : list TLog;
  trace : list Event;
  world : W
}.

Definition M (A : Type) : Type := State -> Result A * State.

Definition ret {A} (a : A) : M A := fun s => (inr a, s).

Definition throw {A} (e : Error) : M A := fun s => (inl e, s).

Definition bind {A B} (m : M A) (k : A -> M B) : M B :=
  fun s =>
    match m s with
    | (inr a, s') => k a s'
    | (inl e, s') => (inl e, s')
    end.

(** [try { body } catch (error) { handler }]. *)
Definition try_catch {A} (body : M A) (handler : Error -> M A) : M A :=
  fun s =>
    match body s with
    | (inr a, s') => (inr a, s')
    | (inl e, s') => handler e s'
    end.

Definition perform (mode : CallMode) {R} (c : Call R) : M R :=
  fun s =>
    let (r, w') := respond c (world s) in
    (r, mkState (logs s) (trace s ++ [ECall mode (world s) c r])%list w').

(** [await f(...)]. *)
Definition await {R} (c : Call R) : M R := perform Awaited c.

(** [f(...)] without [await]. *)
Definition invoke {R} (c : Call R) : M R := perform Plain c.

(** A call of the [createLog] callback by the handler itself. *)
Definition do_createLog (log : TLog) : M unit :=
  fun s =>
    (inr tt, mkState (createLog log (logs s)) (trace s ++ [ELog log])%list (world s)).

Notation "x <- m ;; k" := (bind m (fun x => k))
  (at level 61, m at next level, right associativity).
Notation "' pat <- m ;; k" := (bind m (fun x => match x with pat => k end))
  (at level 61, pat pattern, m at next level, right associativity).
Notation "m ;; k" := (bind m (fun _ => k))
  (at level 61, right associativity).

(** *** The use-case handlers of [StatelessApp] *)

(** SignAndSendTransaction *)
Definition handleSignAndSendTransaction (p : Props) : M unit :=
  match publicKey p, wallet p with
  | Some publicKey, Some _ =>
      try_catch
        (transaction <- await (createTransferTransaction publicKey (connection p)) ;;
         do_createLog
           (mkLog info "signAndSendTransaction"
              ("Requesting signature for: " ++ tx_json transaction)) ;;
         signature <- await (signAndSendTransaction transaction (connection p) (sendTx p)) ;;
         do_createLog
           (mkLog info "signAndSendTransaction"
              ("Signed and submitted transaction " ++ signature ++ ".")) ;;
         invoke (pollSignatureStatus signature (connection p) createLog))
        (fun error_ =>
           do_createLog (mkLog error "signAndSendTransaction" (error_message error_)))
  | _, _ => ret tt
  end.

(** SignAndSendTransactionV0 *)
Definition handleSignAndSendTransactionV0 (p : Props) : M unit :=
  match publicKey p, wallet p with
  | Some publicKey, Some _ =>
      try_catch
        (transactionV0 <- await (createTransferTransactionV0 publicKey (connection p)) ;;
         do_createLog
           (mkLog info "signAndSendTransactionV0"
              ("Requesting signature for: " ++ tx_json transactionV0)) ;;
         signature <- await (signAndSendTransaction transactionV0 (connection p) (sendTx p)) ;;
         do_createLog
           (mkLog info "signAndSendTransactionV0"
              ("Signed and submitted transactionV0 " ++ signature ++ ".")) ;;
         invoke (pollSignatureStatus signature (connection p) createLog))
        (fun error_ =>
           do_createLog (mkLog error "signAndSendTransactionV0" (error_message error_)))
  | _, _ => ret tt
  end.

(** SignAndSendTransactionV0WithLookupTable.  The blockhash argument of
    each helper is evaluated, and awaited, before the helper is called. *)
Definition handleSignAndSendTransactionV0WithLookupTable (p : Props) : M unit :=
  match publicKey p, wallet p with
  | Some publicKey, Some _ =>
      try_catch
        (res <- await (getLatestBlockhash (connection p)) ;;
         '(lookupSignature, lookupTableAddress) <-
           await (createAddressLookupTable publicKey (connection p) (sendTx p)
                    (blockhash res)) ;;
         do_createLog
           (mkLog info "signAndSendTransactionV0WithLookupTable"
              ("Signed and submitted transactionV0 to make an Address Lookup Table "
               ++ lookupTableAddress ++ " with signature: " ++ lookupSignature
               ++ ". Please wait for 5-7 seconds after signing the next transaction to be able to see the next transaction popup. This time is needed as newly appended addresses require one slot to warmup before being available to transactions for lookups.")) ;;
         invoke (pollSignatureStatus lookupSignature (connection p) createLog) ;;
         res <- await (getLatestBlockhash (connection p)) ;;
         extensionSignature <-
           await (extendAddressLookupTable publicKey (connection p) (blockhash res)
                    lookupTableAddress (sendTx p)) ;;
         do_createLog
           (mkLog info "signAndSendTransactionV0WithLookupTable"
              ("Signed and submitted transactionV0 to extend Address Lookup Table "
               ++ extensionSignature ++ ".")) ;;
         invoke (pollSignatureStatus extensionSignature (connection p) createLog) ;;
         res <- await (getLatestBlockhash (connection p)) ;;
         signature <-
           await (signAndSendTransactionV0WithLookupTable publicKey (connection p)
                    (blockhash res) lookupTableAddress (sendTx p)) ;;
         do_createLog
           (mkLog info "signAndSendTransactionV0WithLookupTable"
              ("Signed and submitted transactionV0 with Address Lookup Table "
               ++ signature ++ ".")) ;;
         invoke (pollSignatureStatus signature (connection p) createLog))
        (fun error_ =>
           do_createLog
             (mkLog error "signAndSendTransactionV0WithLookupTable" (error_message error_)))
  | _, _ => ret tt
  end.

(** SignTransaction *)
Definition handleSignTransaction (p : Props) : M unit :=
  match publicKey p, wallet p with
  | Some publicKey, Some _ =>
      try_catch
        (transaction <- await (createTransferTransaction publicKey (connection p)) ;;
         do_createLog
           (mkLog info "signTransaction"
              ("Requesting signature for: " ++ tx_json transaction)) ;;
         signedTransaction <- await (signTransaction transaction (signTx p)) ;;
         do_createLog
           (mkLog success "signTransaction"
              ("Transaction signed: " ++ signed_tx_json signedTransaction)))
        (fun error_ =>
           do_createLog (mkLog error "signTransaction" (error_message error_)))
  | _, _ => ret tt
  end.

(** SignAllTransactions *)
Definition handleSignAllTransactions (p : Props) : M unit :=
  match publicKey p, wallet p with
  | Some publicKey, Some _ =>
      try_catch
        (transaction0 <- await (createTransferTransaction publicKey (connection p)) ;;
         transaction1 <- await (createTransferTransaction publicKey (connection p)) ;;
         let transactions := [transaction0; transaction1] in
         do_createLog
           (mkLog info "signAllTransactions"
              ("Requesting signature for: "
               ++ JSON_stringify_array (map tx_json transactions))) ;;
         signedTransactions <-
           await (signAllTransactions transaction0 transaction1 (signAllTx p)) ;;
         do_createLog
           (mkLog success "signAllTransactions"
              ("Transactions signed: "
               ++ JSON_stringify_array (map signed_tx_json signedTransactions))))
        (fun error_ =>
           do_createLog (mkLog error "signAllTransactions" (error_message error_)))
  | _, _ => ret tt
  end.

(** SignMessage; the only handler that gives a value back. *)
Definition handleSignMessage (p : Props) : M (option SignedMessage) :=
  match publicKey p, wallet p with
  | Some _, Some _ =>
      try_catch
        (signedMessage <- await (signMessage Constants.message (signMsg p)) ;;
         do_createLog
           (mkLog success "signMessage"
              ("Message signed: " ++ signed_message_json signedMessage)) ;;
         ret (Some signedMessage))
        (fun error_ =>
           do_createLog (mkLog error "signMessage" (error_message error_)) ;;
           ret None)
  | _, _ => ret None
  end.

(** SignIn; [createSignInData] is awaited before the [try] block. *)
Definition handleSignIn (p : Props) : M unit :=
  match publicKey p, wallet p with
  | Some _, Some _ =>
      signInData <- await createSignInData ;;
      try_catch
        (out <- await (signIn signInData (siws p)) ;;
         let message := TextDecoder_decode (signedMessage out) in
         do_createLog
           (mkLog success "signIn"
              ("Message signed: " ++ message ++ " by " ++ address (account out)
               ++ " with signature " ++ Uint8Array_toString (signature out))))
        (fun error_ =>
           do_createLog (mkLog error "signIn" (error_message error_)))
  | _, _ => ret tt
  end.

(** SignInError; [createSignInErrorData] is awaited before the [try]
    block. *)
Definition handleSignInError (p : Props) : M unit :=
  match publicKey p, wallet p with
  | Some _, Some _ =>
      signInData <- await createSignInErrorData ;;
      try_catch
        (out <- await (signIn signInData (siws p)) ;;
         do_createLog
           (mkLog success "signMessage"
              ("Message signed: " ++ JSON_stringify_Uint8Array (signedMessage out)
               ++ " by " ++ address (account out)
               ++ " with signature " ++ Uint8Array_toString (signature out))))
        (fun error_ =>
           do_createLog (mkLog error "signIn" (error_message error_)))
  | _, _ => ret tt
  end.

(** Connect *)
Definition handleConnect (p : Props) : M unit :=
  match publicKey p, wallet p with
  | Some _, Some _ =>
      try_catch
        (await connect)
        (fun error_ =>
           do_createLog (mkLog error "connect" (error_message error_)))
  | _, _ => ret tt
  end.

(** Disconnect; the message is the waving-hand emoji, U+1F44B. *)
Definition handleDisconnect (p : Props) : M unit :=
  match publicKey p, wallet p with
  | Some _, Some _ =>
      try_catch
        (await disconnect ;;
         do_createLog
           (mkLog warning "disconnect"
              (string_of_list_byte [xf0; x9f; x91; x8b])))
        (fun error_ =>
           do_createLog (mkLog error "disconnect" (error_message error_)))
  | _, _ => ret tt
  end.

(** *** [autoSignIn] of [App], the [autoConnect] callback *)
Definition autoSignIn (adapter : Adapter) : M bool :=
  if negb (has_signIn adapter) then ret true
  else
    input <- await createSignInData ;;
    output <- await (adapter_signIn adapter input) ;;
    verified <- invoke (verifySignIn input output) ;;
    if negb verified then throw (mkError "Sign In verification failed!")
    else ret false.

(** *** The table of use-cases ([connectedMethods], and [connect]) *)
Inductive UseCase : Type :=
| SignAndSendTransaction
| SignAndSendTransactionV0
| SignAndSendTransactionV0WithLookupTable
| SignTransaction
| SignAllTransactions
| SignMessage
| SignIn
| SignInError
| Connect
| Disconnect.

(** The [onClick] of a use-case; a caller of [onClick] drops the value of
    [handleSignMessage]. *)
Definition handler (u : UseCase) (p : Props) : M unit :=
  match u with
  | SignAndSendTransaction => handleSignAndSendTransaction p
  | SignAndSendTransactionV0 => handleSignAndSendTransactionV0 p
  | SignAndSendTransactionV0WithLookupTable =>
      handleSignAndSendTransactionV0WithLookupTable p
  | SignTransaction => handleSignTransaction p
  | SignAllTransactions => handleSignAllTransactions p
  | SignMessage => handleSignMessage p ;; ret tt
  | SignIn => handleSignIn p
  | SignInError => handleSignInError p
  | Connect => handleConnect p
  | Disconnect => handleDisconnect p
  end.

(** Running a handler from a log [logs0] and a world [w], with an empty
    trace. *)
Definition run {A} (m : M A) (logs0 : list TLog) (w : W) : Result A * State :=
  m (mkState logs0 [] w).

Definition outcome {A} (m : M A) (logs0 : list TLog) (w : W) : Result A :=
  fst (run m logs0 w).

Definition logs_after {A} (m : M A) (logs0 : list TLog) (w : W) : list TLog :=
  logs (snd (run m logs0 w)).

Definition trace_of {A} (m : M A) (logs0 : list TLog) (w : W) : list Event :=
  trace (snd (run m logs0 w)).

(** The entries a run appended through [createLog], oldest first. *)
Fixpoint logged (tr : list Event) : list TLog :=
  match tr with
  | [] => []
  | ELog l :: rest => l :: logged rest
  | ECall _ _ _ _ :: rest => logged rest
  end.

End Orchestration.

Arguments ELog {W} log.
Arguments ECall {W} mode w {R} c r.

(** Both identities of the session are present. *)
Definition connected (p : Props) : bool :=
  match publicKey p, wallet p with
  | Some _, Some _ => true
  | _, _ => false
  end.

(* ------------------------------------------------------------------------- *)
(** ** Scripted worlds, for running the handlers *)
(* ------------------------------------------------------------------------- *)

(** The value a call gives back when the wallet approves and the network
    accepts. *)
Definition answer {R} (c : Call R) : R :=
  match c in Call R return R with
  | createTransferTransaction pk _ => mkTx ("{transfer:" ++ pk ++ "}")
  | createTransferTransactionV0 pk _ => mkTx ("{transferV0:" ++ pk ++ "}")
  | getLatestBlockhash _ => mkBlockhash "blockhash" 100
  | createAddressLookupTable _ _ _ _ => ("sigCreate", "table1")
  | extendAddressLookupTable _ _ _ _ _ => "sigExtend"
  | signAndSendTransactionV0WithLookupTable _ _ _ _ _ => "sigV0"
  | signAndSendTransaction _ _ _ => "sigSend"
  | signTransaction tx _ => mkSignedTx ("signed" ++ tx_json tx)
  | signAllTransactions tx1 tx2 _ =>
      [mkSignedTx ("signed" ++ tx_json tx1); mkSignedTx ("signed" ++ tx_json tx2)]
  | signMessage m _ => mkSignedMessage "{signature:1}"
  | signIn _ _ => mkSignInOutput (mkAccount "acct") [x68; x69] [x01; x02]
  | createSignInData => mkSignInInput "{domain:dapp}"
  | createSignInErrorData => mkSignInInput "{domain:wrong}"
  | connect => tt
  | disconnect => tt
  | pollSignatureStatus _ _ _ => tt
  | adapter_signIn _ _ => mkSignInOutput (mkAccount "acct") [x68; x69] [x01; x02]
  | verifySignIn _ _ => true
  end.

(** A scripted world counts the calls made so far; call number [fail_at]
    (from 0) throws, and [verifySignIn] gives [verdict]. *)
Record Script : Type := mkScript {
  fail_at : option nat;
  verdict : bool
}.

Definition scripted_answer (sc : Script) {R} (c : Call R) : R :=
  match c in Call R return R -> R with
  | verifySignIn _ _ => fun _ => verdict sc
  | _ => fun r => r
  end (answer c).

Definition scripted (sc : Script) (R : Type) (c : Call R) (n : nat) : Result R * nat :=
  match fail_at sc with
  | Some k => if Nat.eqb k n then (inl (mkError "User rejected the request."), S n)
              else (inr (scripted_answer sc c), S n)
  | None => (inr (scripted_answer sc c), S n)
  end.

Definition all_ok : Script := mkScript None true.
Definition failing (k : nat) : Script := mkScript (Some k) true.

Definition props0 : Props :=
  mkProps (Some "Phantom") (Some "PubKey1") (Some "signMessage") (Some "signIn")
    (Some "signTransaction") (Some "signAllTransactions") (Some "sendTransaction")
    "https://rpc-devnet".

Definition props_disconnected : Props :=
  mkProps None None None None None None None "https://rpc-devnet".

(* ------------------------------------------------------------------------- *)
(** ** Reading a trace *)
(* ------------------------------------------------------------------------- *)

Section Traces.

Variable W : Type.
Implicit Types (e : Event W) (tr : list (Event W)).

(** The error an event's call threw, if it threw. *)
Definition failure e : option Error :=
  match e with
  | ECall _ _ _ (inl err) => Some err
  | _ => None
  end.

Definition is_dispatch_event e : bool :=
  match e with
  | ECall _ _ c _ => is_dispatch c
  | ELog _ => false
  end.

Definition is_submit_event e : bool :=
  match e with
  | ECall _ _ c _ => submits c
  | ELog _ => false
  end.

(** The receipt a submitting call returned. *)
Definition receipt_of_event e : option Signature :=
  match e with
  | ECall _ _ c (inr v) => receipt_of c v
  | _ => None
  end.

(** A call of [pollSignatureStatus]: how it was called and with what. *)
Definition poll_call e : option (CallMode * Signature * Connection) :=
  match e with
  | ECall mode _ (pollSignatureStatus sig conn _) _ => Some (mode, sig, conn)
  | _ => None
  end.

Definition poll_sink e : option (TLog -> Updater) :=
  match e with
  | ECall _ _ (pollSignatureStatus _ _ sink) _ => Some sink
  | _ => None
  end.

Definition is_poll e : bool :=
  match poll_call e with Some _ => true | None => false end.

(** The three submissions of the lookup-table use-case. *)
Definition create_call e : option (W * Result (Signature * Address)) :=
  match e with
  | ECall _ w c r =>
      match c in Call R return Result R -> option (W * Result (Signature * Address)) with
      | createAddressLookupTable _ _ _ _ => fun r => Some (w, r)
      | _ => fun _ => None
      end r
  | ELog _ => None
  end.

Definition extend_call e : option (W * Address * Result Signature) :=
  match e with
  | ECall _ w c r =>
      match c in Call R return Result R -> option (W * Address * Result Signature) with
      | extendAddressLookupTable _ _ _ addr _ => fun r => Some (w, addr, r)
      | _ => fun _ => None
      end r
  | ELog _ => None
  end.

Definition use_call e : option (W * Address * Result Signature) :=
  match e with
  | ECall _ w c r =>
      match c in Call R return Result R -> option (W * Address * Result Signature) with
      | signAndSendTransactionV0WithLookupTable _ _ _ addr _ => fun r => Some (w, addr, r)
      | _ => fun _ => None
      end r
  | ELog _ => None
  end.

Definition is_connect e : bool :=
  match e with
  | ECall _ _ connect _ => true
  | _ => false
  end.

(** A [verifySignIn] call and its verdict. *)
Definition verify_call e : option (Result bool) :=
  match e with
  | ECall _ _ c r =>
      match c in Call R return Result R -> option (Result bool) with
      | verifySignIn _ _ => fun r => Some r
      | _ => fun _ => None
      end r
  | ELog _ => None
  end.

Definition error_entries (l : list TLog) : list TLog :=
  filter (fun x => Status_eqb (status x) error) l.


(** *** The confirmation status of a receipt *)

Inductive ConfirmationStatus : Type :=
| pending
| confirmed
| finalized
| failed (reason : string)
| timed_out.

Definition at_least_confirmed (st : ConfirmationStatus) : bool :=
  match st with
  | confirmed | finalized => true
  | _ => false
  end.

(** What the network reports for a receipt in a given state of the
    world. *)
Variable statusOf : W -> Signature -> ConfirmationStatus.

(** The ordering of section 4.2 read on a trace: when the extend step is
    dispatched, an earlier create step has returned the receipt of the
    table being extended and the network reports that receipt as at least
    confirmed. *)
Definition extend_only_after_create_confirmed tr : Prop :=
  forall j e wx addr r,
    nth_error tr j = Some e ->
    extend_call e = Some (wx, addr, r) ->
    exists i e1 w1 sig,
      i < j /\ nth_error tr i = Some e1 /\
      create_call e1 = Some (w1, inr (sig, addr)) /\
      at_least_confirmed (statusOf wx sig) = true.

(** The same for the transaction that uses the table, against the receipt
    of the extend step. *)
Definition use_only_after_extend_confirmed tr : Prop :=
  forall j e wx addr r,
    nth_error tr j = Some e ->
    use_call e = Some (wx, addr, r) ->
    exists i e1 w1 sig,
      i < j /\ nth_error tr i = Some e1 /\
      extend_call e1 = Some (w1, addr, inr sig) /\
      at_least_confirmed (statusOf wx sig) = true.

(** *** The reporting protocol of section 4.5 read on a trace *)



Definition receipt_handed_to_poller (conn : Connection) tr : Prop :=
  forall j e sig,
    nth_error tr j = Some e -> receipt_of_event e = Some sig ->
    exists k e' mode,
      j < k /\ nth_error tr k = Some e' /\
      poll_call e' = Some (mode, sig, conn) /\ poll_sink e' = Some createLog.

End Traces.


(** The [method] text a handler writes into its entries; [SignInError]
    writes two different ones and has no entry here. *)
Definition method_name (u : UseCase) : option string :=
  match u with
  | SignAndSendTransaction => Some "signAndSendTransaction"
  | SignAndSendTransactionV0 => Some "signAndSendTransactionV0"
  | SignAndSendTransactionV0WithLookupTable =>
      Some "signAndSendTransactionV0WithLookupTable"
  | SignTransaction => Some "signTransaction"
  | SignAllTransactions => Some "signAllTransactions"
  | SignMessage => Some "signMessage"
  | SignIn => Some "signIn"
  | SignInError => None
  | Connect => Some "connect"
  | Disconnect => Some "disconnect"
  end.

(** The sign-in use-cases create their challenge with a call that is
    awaited before the [try] block is entered. *)
Definition challenge (u : UseCase) : option (Call SolanaSignInInput) :=
  match u with
  | SignIn => Some createSignInData
  | SignInError => Some createSignInErrorData
  | _ => None
  end.

(* ------------------------------------------------------------------------- *)
(** ** What a caller can pass to a handler *)
(* ------------------------------------------------------------------------- *)

(** Values a caller of [onClick] may pass.  Every handler is declared as
    [async () => ...], without parameters. *)
Inductive JsValue : Type :=
| JsUndefined
| JsClickEvent
| JsAbortSignal (aborted : bool).

(** A call [onClick(...args)]: JavaScript drops the arguments a function
    without parameters is given. *)
Definition onClick {W} (respond : forall R : Type, Call R -> W -> Result R * W)
    (u : UseCase) (p : Props) (args : list JsValue) : M W unit :=
  handler respond u p.

(** Cancellation through a signal supplied by the caller, read on a trace:
    an invocation given an already aborted signal starts no polling. *)
Definition aborted_signal_stops_polling {W}
    (respond : forall R : Type, Call R -> W -> Result R * W)
    (u : UseCase) (p : Props) (logs0 : list TLog) (w : W) : Prop :=
  forall args e,
    In (JsAbortSignal true) args ->
    In e (trace_of (onClick respond u p args) logs0 w) ->
    is_poll e = false.

(** A network that reports every receipt as pending while fewer than
    [delay] calls have been made to the world, and as confirmed from then
    on. *)
Definition slow_network (delay : nat) (n : nat) (sig : Signature)
    : ConfirmationStatus :=
  if Nat.ltb n delay then pending else confirmed.

(* ------------------------------------------------------------------------- *)
(** ** Concurrent invocations that share the log *)
(* ------------------------------------------------------------------------- *)

(** [Interleave a b m]: [m] is a schedule of the pushes of two invocations,
    [a] and [b], each taken in its own order. *)
Inductive Interleave {A : Type} : list A -> list A -> list A -> Prop :=
| Interleave_nil : Interleave [] [] []
| Interleave_left x a b m : Interleave a b m -> Interleave (x :: a) b (x :: m)
| Interleave_right x a b m : Interleave a b m -> Interleave a (x :: b) (x :: m).

(* ------------------------------------------------------------------------- *)
(** ** Signing a batch *)
(* ------------------------------------------------------------------------- *)

Section SignBatch.

(** The wallet's verdict on one member of a batch. *)
Variable signerCapability : Transaction -> Result SignedTransaction.

(** Modelled from the spec: the helper [signAllTransactions] of './utils'
    is not among the sources, only its call in [handleSignAllTransactions]
    is.  Section 4.3 describes it as [signBatch]: it takes an ordered
    sequence of transactions and the signer capability, gives the signed
    transactions in the order of the input, and fails as a whole when the
    capability rejects a member. *)
Fixpoint signBatch (transactions : list Transaction)
    : Result (list SignedTransaction) :=
  match transactions with
  | [] => inr []
  | tx :: rest =>
      match signerCapability tx with
      | inl e => inl e
      | inr signed =>
          match signBatch rest with
          | inl e => inl e
          | inr signedRest => inr (signed :: signedRest)
          end
      end
  end.

End SignBatch.

(** A world whose [signAllTransactions] helper is [signBatch] over the
    capability [cap], and that otherwise answers as [all_ok]. *)
Definition batch_world (cap : Transaction -> Result SignedTransaction)
    (R : Type) (c : Call R) (n : nat) : Result R * nat :=
  match c in Call R return Result R * nat with
  | signAllTransactions tx1 tx2 _ => (signBatch cap [tx1; tx2], S n)
  | c' => (inr (answer c'), S n)
  end.

(** A signer that rejects the transactions built for [rejected]. *)
Definition picky_signer (rejected : string) (tx : Transaction)
    : Result SignedTransaction :=
  if String.eqb (tx_json tx) rejected then inl (mkError "User rejected the request.")
  else inr (mkSignedTx ("signed" ++ tx_json tx)).

(* ------------------------------------------------------------------------- *)
(** ** The rest of the component *)
(* ------------------------------------------------------------------------- *)

(** The effect of [StatelessApp] that React runs when [publicKey], [wallet]
    or [createLog] changes; [publicKey.toBase58()] is the base58 text by
    which a [PublicKey] is represented here. *)
Definition useEffect_connect {W : Type} (p : Props) : M W unit :=
  match publicKey p, wallet p with
  | Some publicKey, Some _ =>
      do_createLog (mkLog success "connect" ("Connected to account " ++ publicKey))
  | _, _ => ret tt
  end.

(** An entry of the [connectedMethods] table: the label of a button and the
    handler behind it. *)
Module ConnectedMethods.
Record t : Type := mk {
  name : string;
  onClick : UseCase
}.
End ConnectedMethods.

(** [connectedMethods] of the later revision, in the order of the array. *)
Definition connectedMethods : list ConnectedMethods.t :=
  [ ConnectedMethods.mk "Sign and Send Transaction (Legacy)" SignAndSendTransaction;
    ConnectedMethods.mk "Sign and Send Transaction (v0)" SignAndSendTransactionV0;
    ConnectedMethods.mk "Sign and Send Transaction (v0 + Lookup table)"
      SignAndSendTransactionV0WithLookupTable;
    ConnectedMethods.mk "Sign Transaction" SignTransaction;
    ConnectedMethods.mk "Sign All Transactions" SignAllTransactions;
    ConnectedMethods.mk "Sign Message" SignMessage;
    ConnectedMethods.mk "Sign In" SignIn;
    ConnectedMethods.mk "Sign In Error" SignInError;
    ConnectedMethods.mk "Disconnect" Disconnect ].

(** [connectedMethods] of the earlier revision. *)
Definition connectedMethods_rev1 : list ConnectedMethods.t :=
  [ ConnectedMethods.mk "Sign Message" SignMessage;
    ConnectedMethods.mk "Sign In" SignIn;
    ConnectedMethods.mk "Sign In Error" SignInError;
    ConnectedMethods.mk "Disconnect" Disconnect ].

(** The handler behind the first button that carries a label. *)
Fixpoint find_method (label : string) (table : list ConnectedMethods.t)
    : option UseCase :=
  match table with
  | [] => None
  | m :: rest =>
      if String.eqb (ConnectedMethods.name m) label
      then Some (ConnectedMethods.onClick m)
      else find_method label rest
  end.

Definition UseCase_eqb (a b : UseCase) : bool :=
  match a, b with
  | SignAndSendTransaction, SignAndSendTransaction
  | SignAndSendTransactionV0, SignAndSendTransactionV0
  | SignAndSendTransactionV0WithLookupTable, SignAndSendTransactionV0WithLookupTable
  | SignTransaction, SignTransaction
  | SignAllTransactions, SignAllTransactions
  | SignMessage, SignMessage
  | SignIn, SignIn
  | SignInError, SignInError
  | Connect, Connect
  | Disconnect, Disconnect => true
  | _, _ => false
  end.

(** How many buttons a handler is behind. *)
Definition buttons_of (u : UseCase) (table : list ConnectedMethods.t) : nat :=
  length (filter (fun m => UseCase_eqb (ConnectedMethods.onClick m) u) table).

(** The members of the dependency arrays given to [useCallback]. *)
Inductive Dep : Type :=
| DepConnection
| DepCreateLog
| DepPublicKey
| DepWallet
| DepSignMsg
| DepSiws
| DepSignTx
| DepSignAllTx
| DepSendTx
| DepConnect
| DepDisconnect.

(** The dependency array of each handler, as written. *)
Definition deps (u : UseCase) : list Dep :=
  match u with
  | SignAndSendTransaction
  | SignAndSendTransactionV0
  | SignAndSendTransactionV0WithLookupTable =>
      [DepConnection; DepCreateLog; DepPublicKey; DepSendTx; DepWallet]
  | SignTransaction => [DepConnection; DepCreateLog; DepPublicKey; DepSignTx; DepWallet]
  | SignAllTransactions =>
      [DepConnection; DepCreateLog; DepPublicKey; DepSignAllTx; DepWallet]
  | SignMessage => [DepCreateLog; DepPublicKey; DepSignMsg; DepWallet]
  | SignIn | SignInError => [DepCreateLog; DepPublicKey; DepSiws; DepWallet]
  | Connect => [DepConnect; DepCreateLog; DepPublicKey; DepWallet]
  | Disconnect => [DepCreateLog; DepDisconnect; DepPublicKey; DepWallet]
  end.

(** Two renders give a dependency the same value.  [createLog] is the same
    function in every render: it is memoised over [setLogs], which React
    keeps stable.  [connect] and [disconnect] come from [useWallet()] anew
    on each render, like the signing methods, but a call to them carries no
    identity here, so two renders are never taken to agree on them: nothing
    is said about the handlers whose arrays name them. *)
Definition same_dep (p1 p2 : Props) (d : Dep) : Prop :=
  match d with
  | DepConnection => connection p1 = connection p2
  | DepPublicKey => publicKey p1 = publicKey p2
  | DepWallet => wallet p1 = wallet p2
  | DepSignMsg => signMsg p1 = signMsg p2
  | DepSiws => siws p1 = siws p2
  | DepSignTx => signTx p1 = signTx p2
  | DepSignAllTx => signAllTx p1 = signAllTx p2
  | DepSendTx => sendTx p1 = sendTx p2
  | DepCreateLog => True
  | DepConnect | DepDisconnect => False
  end.

(** Handlers whose dependency array names only props and [createLog]. *)
Definition deps_are_props (u : UseCase) : bool :=
  match u with
  | Connect | Disconnect => false
  | _ => true
  end.

(** Use-cases that build a transaction; the earlier revision has none of
    them. *)
Definition uses_transactions (u : UseCase) : bool :=
  match u with
  | SignAndSendTransaction | SignAndSendTransactionV0
  | SignAndSendTransactionV0WithLookupTable
  | SignTransaction | SignAllTransactions => true
  | _ => false
  end.

(** Use-cases whose handler submits to the network. *)
Definition submitting (u : UseCase) : bool :=
  match u with
  | SignAndSendTransaction | SignAndSendTransactionV0
  | SignAndSendTransactionV0WithLookupTable => true
  | _ => false
  end.

Section MoreTraces.

Variable W : Type.
Implicit Types (e : Event W) (tr : list (Event W)).

(** The blockhash a step of the lookup-table use-case was given. *)
Definition blockhash_used e : option Blockhash :=
  match e with
  | ECall _ _ (createAddressLookupTable _ _ _ bh) _ => Some bh
  | ECall _ _ (extendAddressLookupTable _ _ bh _ _) _ => Some bh
  | ECall _ _ (signAndSendTransactionV0WithLookupTable _ _ bh _ _) _ => Some bh
  | _ => None
  end.

(** The blockhash a [getLatestBlockhash] call returned. *)
Definition blockhash_fetched e : option Blockhash :=
  match e with
  | ECall _ _ c r =>
      match c in Call R return Result R -> option Blockhash with
      | getLatestBlockhash _ =>
          fun r => match r with inr res => Some (blockhash res) | inl _ => None end
      | _ => fun _ => None
      end r
  | ELog _ => None
  end.

(** The transaction a building call returned. *)
Definition built_transaction e : option Transaction :=
  match e with
  | ECall _ _ c r =>
      match c in Call R return Result R -> option Transaction with
      | createTransferTransaction _ _ =>
          fun r => match r with inr tx => Some tx | inl _ => None end
      | createTransferTransactionV0 _ _ =>
          fun r => match r with inr tx => Some tx | inl _ => None end
      | _ => fun _ => None
      end r
  | ELog _ => None
  end.

(** The transactions a call puts before the signer. *)
Definition dispatched_transactions e : list Transaction :=
  match e with
  | ECall _ _ (signAndSendTransaction tx _ _) _ => [tx]
  | ECall _ _ (signTransaction tx _) _ => [tx]
  | ECall _ _ (signAllTransactions tx1 tx2 _) _ => [tx1; tx2]
  | _ => []
  end.

(** The challenge a challenge-creating call returned, with the call that
    made it: [false] for [createSignInData], [true] for
    [createSignInErrorData]. *)
Definition challenge_created e : option (bool * SolanaSignInInput) :=
  match e with
  | ECall _ _ c r =>
      match c in Call R return Result R -> option (bool * SolanaSignInInput) with
      | createSignInData =>
          fun r => match r with inr d => Some (false, d) | inl _ => None end
      | createSignInErrorData =>
          fun r => match r with inr d => Some (true, d) | inl _ => None end
      | _ => fun _ => None
      end r
  | ELog _ => None
  end.

(** What the [signIn] helper was given. *)
Definition signIn_call e : option (SolanaSignInInput * Capability) :=
  match e with
  | ECall _ _ (signIn d cap) _ => Some (d, cap)
  | _ => None
  end.

(** What [adapter.signIn] was given and what it returned. *)
Definition adapter_signIn_call e
    : option (Adapter * SolanaSignInInput * Result SolanaSignInOutput) :=
  match e with
  | ECall _ _ c r =>
      match c in Call R
            return Result R
                   -> option (Adapter * SolanaSignInInput * Result SolanaSignInOutput) with
      | adapter_signIn a d => fun r => Some (a, d, r)
      | _ => fun _ => None
      end r
  | ELog _ => None
  end.

(** What [verifySignIn] was given. *)
Definition verify_args e : option (SolanaSignInInput * SolanaSignInOutput) :=
  match e with
  | ECall _ _ (verifySignIn input output) _ => Some (input, output)
  | _ => None
  end.

(** What the [signMessage] helper returned. *)
Definition signMessage_result e : option (Result SignedMessage) :=
  match e with
  | ECall _ _ c r =>
      match c in Call R return Result R -> option (Result SignedMessage) with
      | signMessage _ _ => fun r => Some r
      | _ => fun _ => None
      end r
  | ELog _ => None
  end.

Definition is_lifecycle_call e : bool :=
  match e with
  | ECall _ _ connect _ => true
  | ECall _ _ disconnect _ => true
  | _ => false
  end.

(** The state of the world in which a call was made. *)
Definition call_world e : option W :=
  match e with
  | ECall _ w _ _ => Some w
  | ELog _ => None
  end.

Definition is_call_event e : bool :=
  match e with
  | ECall _ _ _ _ => true
  | ELog _ => false
  end.

(** The transactions the building calls of a trace returned, in order. *)
Fixpoint built_transactions tr : list Transaction :=
  match tr with
  | [] => []
  | e :: rest =>
      match built_transaction e with
      | Some tx => tx :: built_transactions rest
      | None => built_transactions rest
      end
  end.

(** The receipts the calls of a trace returned, in order. *)
Fixpoint receipts tr : list Signature :=
  match tr with
  | [] => []
  | e :: rest =>
      match receipt_of_event e with
      | Some sig => sig :: receipts rest
      | None => receipts rest
      end
  end.

(** The receipts given to [pollSignatureStatus], in order. *)
Fixpoint polled tr : list Signature :=
  match tr with
  | [] => []
  | e :: rest =>
      match poll_call e with
      | Some (_, sig, _) => sig :: polled rest
      | None => polled rest
      end
  end.

End MoreTraces.

(* ------------------------------------------------------------------------- *)
(** ** The session during auto-connect *)
(* ------------------------------------------------------------------------- *)

(** A world whose state says whether an account reference is active.  The
    adapter is one whose [signIn], when it succeeds, connects the account it
    signed in with, as the adapters of the wallet standard do; and
    [verifySignIn] rejects what was signed. *)
Definition connecting_adapter (R : Type) (c : Call R) (active : bool)
    : Result R * bool :=
  match c in Call R return Result R * bool with
  | adapter_signIn a d => (inr (answer (adapter_signIn a d)), true)
  | verifySignIn _ _ => (inr false, active)
  | c' => (inr (answer c'), active)
  end.

(** The end of an attempt as scenario 5 wants it: an attempt that starts
    without an active account and in which [verifySignIn] answers [false]
    is reported as failed and ends without an active account. *)
Definition verification_failure_leaves_no_account {W : Type}
    (active : W -> bool)
    (respond : forall R : Type, Call R -> W -> Result R * W)
    (adapter : Adapter) (logs0 : list TLog) (w : W) : Prop :=
  active w = false ->
  (exists e, In e (trace_of (autoSignIn respond adapter) logs0 w)
             /\ verify_call e = Some (inr false)) ->
  (exists err, outcome (autoSignIn respond adapter) logs0 w = inl err)
  /\ active (world (snd (run (autoSignIn respond adapter) logs0 w))) = false.

(* ------------------------------------------------------------------------- *)
(** ** Symbolic execution of the handlers *)
(* ------------------------------------------------------------------------- *)

Ltac unfold_handlers :=
  cbv [run outcome logs_after trace_of onClick handler
       handleSignAndSendTransaction handleSignAndSendTransactionV0
       handleSignAndSendTransactionV0WithLookupTable handleSignTransaction
       handleSignAllTransactions handleSignMessage handleSignIn
       handleSignInError handleConnect handleDisconnect autoSignIn
       try_catch bind await invoke perform do_createLog ret throw
       logs trace world fst snd].

(** Splits on the answer of the next call, remembering the answer. *)
Ltac next_call :=
  match goal with
  | respond : forall R : Type, Call R -> ?W -> Result R * ?W
    |- context [?f ?R ?c ?w] =>
      constr_eq f respond;
      let e := fresh "err" in
      let v := fresh "v" in
      let w' := fresh "w" in
      let E := fresh "Ecall" in
      destruct (f R c w) as [[e | v] w'] eqn:E
  end.

(** Runs a handler to its end along every combination of answers. *)
Ltac step_all :=
  repeat (first
            [ next_call
            | match goal with
              | |- context [let (_, _) := ?v in _] => is_var v; destruct v
              | v : unit |- _ => destruct v
              end ];
          cbn [app fst snd]).

(** Proves [exists e, In e tr /\ P e] by trying the events of [tr]. *)
Ltac pick_event :=
  match goal with
  | |- exists e', In e' ?tr /\ _ =>
      let rec go l :=
        lazymatch l with
        | ?x :: ?rest =>
            first [ exists x; split;
                    [ cbn [In]; repeat (first [left; reflexivity | right])
                    | reflexivity ]
                  | go rest ]
        end in
      go tr
  end.

(** Splits [nth_error tr j = Some e], for a trace written out, into one goal
    for each position of the trace. *)
Ltac nth_cases H j :=
  repeat (destruct j as [| j];
          [cbn [nth_error] in H; injection H as <-
          | cbn [nth_error] in H]);
  try (destruct j; discriminate H).

Ltac in_cases H :=
  cbn [In app] in H;
  repeat (destruct H as [<- | H]; [cbn in * |- |]);
  try contradiction.

(* ------------------------------------------------------------------------- *)
(** ** The connection guard *)
(* ------------------------------------------------------------------------- *)

(** C3.  A use-case method invoked while [publicKey] or [wallet] is absent
    returns at once: it calls nothing outside the component (no building,
    signing or network call), appends no log entry, and leaves the log and
    the world as they were. *)
Theorem not_connected_is_noop
    (W : Type) (respond : forall R : Type, Call R -> W -> Result R * W)
    (u : UseCase) (p : Props) (logs0 : list TLog) (w : W) :
  connected p = false ->
  run (handler respond u p) logs0 w = (inr tt, mkState logs0 [] w).
Proof.
  unfold connected. intro Hguard.
  destruct u; unfold_handlers;
    destruct (publicKey p); try reflexivity;
    destruct (wallet p); try reflexivity; discriminate.
Qed.

Lemma not_connected_is_noop_witness :
  connected props_disconnected = false /\
  run (handler (scripted all_ok) SignAndSendTransaction props_disconnected) [] 0
  = (inr tt, mkState [] [] 0).
Proof.
  split; [reflexivity |].
  apply (not_connected_is_noop (scripted all_ok) SignAndSendTransaction
           props_disconnected [] 0).
  reflexivity.
Defined.

(** [handleSignMessage] itself gives [undefined] back in that case. *)
Lemma handleSignMessage_not_connected
    (W : Type) (respond : forall R : Type, Call R -> W -> Result R * W)
    (p : Props) (logs0 : list TLog) (w : W) :
  connected p = false ->
  run (handleSignMessage respond p) logs0 w = (inr None, mkState logs0 [] w).
Proof.
  unfold connected. intro Hguard. unfold_handlers.
  destruct (publicKey p); try reflexivity.
  destruct (wallet p); try reflexivity; discriminate.
Qed.

(* ------------------------------------------------------------------------- *)
(** ** [autoSignIn] *)
(* ------------------------------------------------------------------------- *)

(** C6, as stated, fails: with an adapter whose [signIn] connects the
    account, an attempt that starts without an active account and whose
    verification answers [false] is reported as failed, yet it ends with the
    account active: [adapter.signIn] runs before the verification and
    [autoSignIn] undoes nothing. *)
Lemma verification_failure_leaves_account_active :
  ~ verification_failure_leaves_no_account (fun active : bool => active)
      connecting_adapter (mkAdapter "Phantom" true) [] false.
Proof.
  intros Hclaim. unfold verification_failure_leaves_no_account in Hclaim.
  assert (Hv : exists e,
             In e (trace_of (autoSignIn connecting_adapter (mkAdapter "Phantom" true))
                     [] false)
             /\ verify_call e = Some (inr false)).
  { exists (ECall Plain true
              (verifySignIn (mkSignInInput "{domain:dapp}")
                 (mkSignInOutput (mkAccount "acct") [x68; x69] [x01; x02]))
              (inr false)).
    split; [vm_compute; right; right; left; reflexivity | reflexivity]. }
  destruct (Hclaim eq_refl Hv) as [_ Hactive].
  vm_compute in Hactive. discriminate Hactive.
Qed.

(** C6, amended.  Whenever [verifySignIn] answers [false] during an
    [autoSignIn] attempt, the callback throws the error 'Sign In
    verification failed!' instead of returning a value, appends nothing to
    the log and calls neither [connect] nor [disconnect].  The verification
    is its third and last step: it does nothing after the verdict, so the
    world it leaves is the world the [verifySignIn] call left, with whatever
    [adapter.signIn] did to the session still in place. *)
Theorem autoSignIn_verification_failure_aborts
    (W : Type) (respond : forall R : Type, Call R -> W -> Result R * W)
    (adapter : Adapter) (logs0 : list TLog) (w : W) (e : Event W) :
  In e (trace_of (autoSignIn respond adapter) logs0 w) ->
  verify_call e = Some (inr false) ->
  outcome (autoSignIn respond adapter) logs0 w
    = inl (mkError "Sign In verification failed!")
  /\ logs_after (autoSignIn respond adapter) logs0 w = logs0
  /\ (forall e', In e' (trace_of (autoSignIn respond adapter) logs0 w) ->
                 is_lifecycle_call e' = false)
  /\ (exists e0 e1, trace_of (autoSignIn respond adapter) logs0 w = [e0; e1; e])
  /\ (forall input output wv,
        verify_args e = Some (input, output) ->
        call_world e = Some wv ->
        world (snd (run (autoSignIn respond adapter) logs0 w))
        = snd (respond _ (verifySignIn input output) wv)).
Proof.
  unfold_handlers.
  destruct (has_signIn adapter); cbn [negb].
  2: { intros []. }
  step_all;
    try match goal with |- context [negb ?b] => destruct b; cbn [negb] end;
    intros Hin Hv; cbn [In app] in Hin;
    repeat (destruct Hin as [<- | Hin]; [cbn in Hv; try discriminate |]);
    try contradiction.
  split; [reflexivity |]. split; [reflexivity |]. split; [| split].
  - intros e' Hin'. cbn [In app] in Hin'.
    repeat (destruct Hin' as [<- | Hin']; [reflexivity |]). contradiction.
  - eexists. eexists. reflexivity.
  - intros input output wv Hargs Hworld.
    cbn in Hargs, Hworld.
    injection Hargs as <- <-. injection Hworld as <-.
    match goal with H : respond _ (verifySignIn _ _) _ = _ |- _ => rewrite H end.
    reflexivity.
Qed.

Lemma autoSignIn_verification_failure_aborts_witness :
  outcome (autoSignIn connecting_adapter (mkAdapter "Phantom" true)) [] false
    = inl (mkError "Sign In verification failed!")
  /\ logs_after (autoSignIn connecting_adapter (mkAdapter "Phantom" true)) [] false = []
  /\ (forall e', In e' (trace_of (autoSignIn connecting_adapter
                                    (mkAdapter "Phantom" true)) [] false) ->
                 is_lifecycle_call e' = false)
  /\ (exists e0 e1,
        trace_of (autoSignIn connecting_adapter (mkAdapter "Phantom" true)) [] false
        = [e0; e1;
           ECall Plain true
             (verifySignIn (mkSignInInput "{domain:dapp}")
                (mkSignInOutput (mkAccount "acct") [x68; x69] [x01; x02]))
             (inr false)])
  /\ (forall input output wv,
        verify_args
          (ECall Plain true
             (verifySignIn (mkSignInInput "{domain:dapp}")
                (mkSignInOutput (mkAccount "acct") [x68; x69] [x01; x02]))
             (inr false))
        = Some (input, output) ->
        call_world
          (ECall Plain true
             (verifySignIn (mkSignInInput "{domain:dapp}")
                (mkSignInOutput (mkAccount "acct") [x68; x69] [x01; x02]))
             (inr false))
        = Some wv ->
        world (snd (run (autoSignIn connecting_adapter (mkAdapter "Phantom" true))
                      [] false))
        = snd (connecting_adapter (verifySignIn input output) wv)).
Proof.
  apply (autoSignIn_verification_failure_aborts
           connecting_adapter (mkAdapter "Phantom" true) [] false
           (ECall Plain true
              (verifySignIn (mkSignInInput "{domain:dapp}")
                 (mkSignInOutput (mkAccount "acct") [x68; x69] [x01; x02]))
              (inr false))).
  - vm_compute. right. right. left. reflexivity.
  - reflexivity.
Defined.



(* ------------------------------------------------------------------------- *)
(** ** Errors at the boundary of a use-case *)
(* ------------------------------------------------------------------------- *)

(** C2.  In the sign-in and sign-in-error use-cases the challenge is created
    outside the [try] block: when that call throws, the error leaves the
    handler towards its caller and nothing is appended to the log. *)
Theorem challenge_error_escapes_unlogged
    (W : Type) (respond : forall R : Type, Call R -> W -> Result R * W)
    (u : UseCase) (c : Call SolanaSignInInput) (p : Props)
    (logs0 : list TLog) (w w' : W) (err : Error) :
  connected p = true ->
  challenge u = Some c ->
  respond _ c w = (inl err, w') ->
  run (handler respond u p) logs0 w
  = (inl err, mkState logs0 [ECall Awaited w c (inl err)] w').
Proof.
  unfold connected. intros Hconn Hch Hresp.
  destruct u; try discriminate; injection Hch as <-; unfold_handlers;
    destruct (publicKey p); try discriminate;
    destruct (wallet p); try discriminate;
    rewrite Hresp; reflexivity.
Qed.

Lemma challenge_error_escapes_unlogged_witness :
  run (handler (scripted (failing 0)) SignIn props0) [] 0
  = (inl (mkError "User rejected the request."),
     mkState [] [ECall Awaited 0 createSignInData
                   (inl (mkError "User rejected the request."))] 1).
Proof.
  apply (challenge_error_escapes_unlogged (scripted (failing 0)) SignIn
           (c := createSignInData) props0 []);
    reflexivity.
Defined.

(** X17.  Every other step of every use-case is inside the [try] block.  A
    handler without a separate challenge step never throws; whenever a
    handler returns after one of its calls threw, it has appended one
    [error] entry, which carries the message of that error; and a handler
    none of whose calls threw returns without any [error] entry. *)
Lemma errors_inside_try_are_logged
    (W : Type) (respond : forall R : Type, Call R -> W -> Result R * W)
    (u : UseCase) (p : Props) (logs0 : list TLog) (w : W) :
  (challenge u = None -> outcome (handler respond u p) logs0 w = inr tt)
  /\ (forall e err,
        In e (trace_of (handler respond u p) logs0 w) ->
        failure e = Some err ->
        outcome (handler respond u p) logs0 w = inr tt ->
        exists m,
          error_entries (logged (trace_of (handler respond u p) logs0 w))
          = [mkLog error m (error_message err)])
  /\ ((forall e, In e (trace_of (handler respond u p) logs0 w) -> failure e = None) ->
      outcome (handler respond u p) logs0 w = inr tt
      /\ error_entries (logged (trace_of (handler respond u p) logs0 w)) = []).
Proof.
  destruct u; unfold_handlers;
    (destruct (publicKey p);
     [destruct (wallet p) |]);
    try (split; [reflexivity | split; [intros ev er [] | intros _; split; reflexivity]]);
    step_all;
    (split; [intros Hc; try reflexivity; cbn in Hc; discriminate Hc |
      split; [intros ev er Hin Hf Hout; try discriminate Hout;
              in_cases Hin; try discriminate Hf;
              injection Hf as <-; eexists; reflexivity
             | intros Hnone; try (split; reflexivity)]]).
  all: exfalso.
  all: try
    match goal with
    | H : forall e, In e ?tr -> _ |- _ =>
        match tr with
        | context [ECall ?m ?w0 ?c (inl ?x)] =>
            specialize (H (ECall m w0 c (inl x)));
            cbn [In app failure] in H
        end
    end.
  all: match goal with
       | H : ?A -> Some _ = None |- _ =>
           assert (HA : A) by (repeat (first [left; reflexivity | right]));
           specialize (H HA); discriminate
       end.
Qed.

(* ------------------------------------------------------------------------- *)
(** ** The [method] field of the entries *)
(* ------------------------------------------------------------------------- *)

(** X18.  Every use-case but the sign-in-error one writes a single [method]
    text into all the entries it appends. *)
Lemma entries_carry_method_name
    (W : Type) (respond : forall R : Type, Call R -> W -> Result R * W)
    (u : UseCase) (name : string) (p : Props) (logs0 : list TLog) (w : W) :
  method_name u = Some name ->
  Forall (fun l => method l = name)
         (logged (trace_of (handler respond u p) logs0 w)).
Proof.
  intros Hname.
  destruct u; cbn in Hname; try discriminate; injection Hname as <-;
    unfold_handlers;
    (destruct (publicKey p); [destruct (wallet p) |]);
    try (constructor; fail);
    step_all; cbn [logged]; repeat constructor.
Qed.

(** The entries of the sign-in-error use-case do not share a [method] text:
    no name, the use-case's own included, is carried by all of them. *)
Lemma handleSignInError_entries_disagree_on_method :
  forall name : string,
    ~ (forall sc : Script,
         Forall (fun l => method l = name)
                (logged (trace_of (handler (scripted sc) SignInError props0) [] 0))).
Proof.
  intros name Hall.
  pose proof (Hall all_ok) as Hok.
  pose proof (Hall (failing 1)) as Hrej.
  vm_compute in Hok. vm_compute in Hrej.
  inversion Hok as [| x l Hm _]; subst.
  inversion Hrej as [| x' l' Hm' _]; subst.
  discriminate Hm'.
Qed.

(** C5.  Whatever the wallet and the helpers answer, an entry appended by the
    sign-in-error handler is either a [success] entry whose method is
    'signMessage' or an [error] entry whose method is 'signIn'; both occur:
    the first when the wallet signs, the second when it rejects.  Neither
    text is the name of the use-case, and the two differ. *)
Theorem handleSignInError_entries :
  (forall (W : Type) (respond : forall R : Type, Call R -> W -> Result R * W)
          (p : Props) (logs0 : list TLog) (w : W) (l : TLog),
      In l (logged (trace_of (handleSignInError respond p) logs0 w)) ->
      (status l = success /\ method l = "signMessage")
      \/ (status l = error /\ method l = "signIn"))
  /\ map (fun l => (status l, method l))
         (logged (trace_of (handler (scripted all_ok) SignInError props0) [] 0))
     = [(success, "signMessage")]
  /\ map (fun l => (status l, method l))
         (logged (trace_of (handler (scripted (failing 1)) SignInError props0) [] 0))
     = [(error, "signIn")].
Proof.
  split; [| split; reflexivity].
  intros W respond p logs0 w l.
  unfold_handlers.
  (destruct (publicKey p); [destruct (wallet p) |]);
    try (intros []);
    step_all; cbn [logged In]; intros Hin;
    repeat (destruct Hin as [<- | Hin]; [cbn [status method]; tauto |]);
    contradiction.
Qed.

(* ------------------------------------------------------------------------- *)
(** ** Appending to the log *)
(* ------------------------------------------------------------------------- *)

Lemma processQueue_createLog (pushes : list TLog) :
  forall logs0, processQueue (map createLog pushes) logs0 = (logs0 ++ pushes)%list.
Proof.
  unfold processQueue.
  induction pushes as [| x rest IH]; intros logs0; cbn [map fold_left].
  - now rewrite app_nil_r.
  - rewrite IH. unfold createLog, setLogs. now rewrite <- app_assoc.
Qed.

(** C8.  One call of [createLog] turns the log into the old log followed by
    the one new entry: the old log is the prefix of the new one and the
    length grows by one.  A queue of such calls, in whatever order the
    invocations that share the log made them, leaves the old log followed by
    the pushed entries, each whole and in the order of the calls. *)
Theorem createLog_atomic_append
    (log : TLog) (logs0 : list TLog) (pushes : list TLog) :
  createLog log logs0 = (logs0 ++ [log])%list
  /\ firstn (length logs0) (createLog log logs0) = logs0
  /\ skipn (length logs0) (createLog log logs0) = [log]
  /\ length (createLog log logs0) = S (length logs0)
  /\ processQueue (map createLog pushes) logs0 = (logs0 ++ pushes)%list.
Proof.
  unfold createLog at 1 2 3 4. unfold setLogs.
  repeat split.
  - rewrite firstn_app, Nat.sub_diag, firstn_all. cbn. now rewrite app_nil_r.
  - rewrite skipn_app, Nat.sub_diag, skipn_all. reflexivity.
  - rewrite length_app. cbn. lia.
  - apply processQueue_createLog.
Qed.

Lemma Interleave_length {A : Type} (a b m : list A) :
  Interleave a b m -> length m = length a + length b.
Proof.
  induction 1; cbn; lia.
Qed.

(** Two invocations whose pushes reach the log in any interleaving: nothing
    is lost, and the pushes of each invocation keep their order. *)
Lemma interleaved_pushes_append
    (a b m : list TLog) (logs0 : list TLog) :
  Interleave a b m ->
  processQueue (map createLog m) logs0 = (logs0 ++ m)%list
  /\ length (processQueue (map createLog m) logs0)
     = length logs0 + length a + length b.
Proof.
  intros Hil. rewrite processQueue_createLog. split; [reflexivity |].
  rewrite length_app, (Interleave_length Hil). lia.
Qed.

(* ------------------------------------------------------------------------- *)
(** ** Polling and the caller of a handler *)
(* ------------------------------------------------------------------------- *)

(** C9, as stated, fails: a caller that passes an already aborted signal to
    the plain-transfer handler still gets the polling of its receipt
    started. *)
Lemma aborted_signal_does_not_stop_polling :
  ~ aborted_signal_stops_polling (scripted all_ok) SignAndSendTransaction props0 [] 0.
Proof.
  intros Hstops.
  specialize (Hstops [JsAbortSignal true]
                (ECall Plain 2
                   (pollSignatureStatus "sigSend" "https://rpc-devnet" createLog)
                   (inr tt))).
  assert (Hfalse : is_poll (ECall Plain 2
                     (pollSignatureStatus "sigSend" "https://rpc-devnet" createLog)
                     (inr tt)) = false).
  { apply Hstops.
    - left. reflexivity.
    - vm_compute. do 4 right. left. reflexivity. }
  discriminate Hfalse.
Qed.

(** C9, amended.  A handler takes nothing from its caller, so what it does,
    polling included, is the same whatever the caller passes.  Each polling
    loop is started by a plain call whose result is dropped, and is given
    only a receipt that a submitting call of the same invocation returned,
    the connection of the component and [createLog]. *)
Theorem polling_ignores_caller_arguments
    (W : Type) (respond : forall R : Type, Call R -> W -> Result R * W)
    (u : UseCase) (p : Props) (logs0 : list TLog) (w : W) (args : list JsValue) :
  run (onClick respond u p args) logs0 w = run (onClick respond u p []) logs0 w
  /\ forall e mode sig conn,
       In e (trace_of (onClick respond u p args) logs0 w) ->
       poll_call e = Some (mode, sig, conn) ->
       mode = Plain /\ conn = connection p /\ poll_sink e = Some createLog
       /\ exists e', In e' (trace_of (onClick respond u p args) logs0 w)
                     /\ receipt_of_event e' = Some sig.
Proof.
  split; [reflexivity |].
  destruct u; unfold_handlers;
    (destruct (publicKey p); [destruct (wallet p) |]);
    try (intros e mode sig conn []);
    step_all;
    intros ev mode sig conn Hin Hpoll;
    in_cases Hin; try discriminate Hpoll;
    injection Hpoll as <- <- <-;
    (split; [reflexivity | split; [reflexivity | split; [reflexivity |]]]);
    pick_event.
Qed.

Lemma polling_ignores_caller_arguments_witness :
  run (onClick (scripted all_ok) SignAndSendTransaction props0 [JsAbortSignal true]) [] 0
  = run (onClick (scripted all_ok) SignAndSendTransaction props0 []) [] 0.
Proof.
  apply (polling_ignores_caller_arguments (scripted all_ok) SignAndSendTransaction
           props0 [] 0 [JsAbortSignal true]).
Defined.

(* ------------------------------------------------------------------------- *)
(** ** The reporting protocol around a dispatch *)
(* ------------------------------------------------------------------------- *)




(* ------------------------------------------------------------------------- *)
(** ** The steps of the lookup-table use-case *)
(* ------------------------------------------------------------------------- *)

(** C1, as stated, fails: against a network that has not confirmed anything
    yet, the handler dispatches the extend step while the receipt of the
    create step is pending, and the transaction that uses the table while
    the receipt of the extend step is pending. *)
Lemma lookup_table_ordering_counterexample :
  ~ extend_only_after_create_confirmed (slow_network 30)
      (trace_of (handler (scripted all_ok)
                   SignAndSendTransactionV0WithLookupTable props0) [] 0)
  /\ ~ use_only_after_extend_confirmed (slow_network 30)
         (trace_of (handler (scripted all_ok)
                      SignAndSendTransactionV0WithLookupTable props0) [] 0).
Proof.
  remember (trace_of (handler (scripted all_ok)
                        SignAndSendTransactionV0WithLookupTable props0) [] 0)
    as tr eqn:Htr.
  vm_compute in Htr. subst tr.
  split; intros Hclaim.
  - destruct (Hclaim 5 _ 4 "table1" (inr "sigExtend") eq_refl eq_refl)
      as (i & e1 & w1 & sig & _ & _ & _ & Hconf).
    discriminate Hconf.
  - destruct (Hclaim 9 _ 7 "table1" (inr "sigV0") eq_refl eq_refl)
      as (i & e1 & w1 & sig & _ & _ & _ & Hconf).
    discriminate Hconf.
Qed.

(** The extend step in a trace of the lookup-table handler. *)
Lemma extend_follows_create
    (W : Type) (respond : forall R : Type, Call R -> W -> Result R * W)
    (p : Props) (logs0 : list TLog) (w : W) :
  forall j e wx addr r,
    nth_error (trace_of (handleSignAndSendTransactionV0WithLookupTable respond p)
                 logs0 w) j = Some e ->
    extend_call e = Some (wx, addr, r) ->
    exists i k e1 e2 w1 sig,
      i < k /\ k < j
      /\ nth_error (trace_of (handleSignAndSendTransactionV0WithLookupTable respond p)
                      logs0 w) i = Some e1
      /\ create_call e1 = Some (w1, inr (sig, addr))
      /\ nth_error (trace_of (handleSignAndSendTransactionV0WithLookupTable respond p)
                      logs0 w) k = Some e2
      /\ poll_call e2 = Some (Plain, sig, connection p).
Proof.
  unfold_handlers; (destruct (publicKey p); [destruct (wallet p) |]);
    step_all;
    try (intros [| j] e wx addr r H; discriminate H);
    intros j ev wx addr r Hnth Hcall; nth_cases Hnth j; cbn in Hcall;
    try discriminate Hcall; injection Hcall as <- <- <-;
    exists 1, 3; do 4 eexists;
    (split; [lia | split; [lia |]]);
    (split; [reflexivity | split; [reflexivity | split; reflexivity]]).
Qed.

(** The step that uses the table. *)
Lemma use_follows_extend
    (W : Type) (respond : forall R : Type, Call R -> W -> Result R * W)
    (p : Props) (logs0 : list TLog) (w : W) :
  forall j e wx addr r,
    nth_error (trace_of (handleSignAndSendTransactionV0WithLookupTable respond p)
                 logs0 w) j = Some e ->
    use_call e = Some (wx, addr, r) ->
    exists i i' k e0 e1 e2 w0 w1 sig0 sig,
      i < i' /\ i' < k /\ k < j
      /\ nth_error (trace_of (handleSignAndSendTransactionV0WithLookupTable respond p)
                      logs0 w) i = Some e0
      /\ create_call e0 = Some (w0, inr (sig0, addr))
      /\ nth_error (trace_of (handleSignAndSendTransactionV0WithLookupTable respond p)
                      logs0 w) i' = Some e1
      /\ extend_call e1 = Some (w1, addr, inr sig)
      /\ nth_error (trace_of (handleSignAndSendTransactionV0WithLookupTable respond p)
                      logs0 w) k = Some e2
      /\ poll_call e2 = Some (Plain, sig, connection p).
Proof.
  unfold_handlers; (destruct (publicKey p); [destruct (wallet p) |]);
    step_all;
    try (intros [| j] e wx addr r H; discriminate H);
    intros j ev wx addr r Hnth Hcall; nth_cases Hnth j; cbn in Hcall;
    try discriminate Hcall; injection Hcall as <- <- <-;
    exists 1, 5, 7; do 7 eexists;
    (split; [lia | split; [lia | split; [lia |]]]);
    (split; [reflexivity | split; [reflexivity |]]);
    (split; [reflexivity | split; [reflexivity | split; reflexivity]]).
Qed.

(** The first call that throws ends the chain. *)
Lemma lookup_table_chain_aborts
    (W : Type) (respond : forall R : Type, Call R -> W -> Result R * W)
    (p : Props) (logs0 : list TLog) (w : W) :
  forall j e err,
    nth_error (trace_of (handleSignAndSendTransactionV0WithLookupTable respond p)
                 logs0 w) j = Some e ->
    failure e = Some err ->
    nth_error (trace_of (handleSignAndSendTransactionV0WithLookupTable respond p)
                 logs0 w) (S j)
    = Some (ELog (mkLog error "signAndSendTransactionV0WithLookupTable"
                    (error_message err)))
    /\ nth_error (trace_of (handleSignAndSendTransactionV0WithLookupTable respond p)
                    logs0 w) (S (S j)) = None.
Proof.
  unfold_handlers; (destruct (publicKey p); [destruct (wallet p) |]);
    step_all;
    try (intros [| j] e er H; discriminate H);
    intros j ev er Hnth Hf; nth_cases Hnth j; cbn in Hf; try discriminate Hf;
    injection Hf as <-; split; reflexivity.
Qed.

(** C1, amended.  The extend step is dispatched only after the create step
    has returned its receipt and the address of the table, and after the
    polling of that receipt has been started by a plain call; the
    transaction that uses the table is dispatched only after the extend
    step, for the same table, has returned its receipt and the polling of
    that receipt has been started.  A call that throws is followed by the
    [error] entry and by nothing else. *)
Theorem lookup_table_steps_ordered
    (W : Type) (respond : forall R : Type, Call R -> W -> Result R * W)
    (p : Props) (logs0 : list TLog) (w : W) :
  (forall j e wx addr r,
      nth_error (trace_of (handleSignAndSendTransactionV0WithLookupTable respond p)
                   logs0 w) j = Some e ->
      extend_call e = Some (wx, addr, r) ->
      exists i k e1 e2 w1 sig,
        i < k /\ k < j
        /\ nth_error (trace_of (handleSignAndSendTransactionV0WithLookupTable respond p)
                        logs0 w) i = Some e1
        /\ create_call e1 = Some (w1, inr (sig, addr))
        /\ nth_error (trace_of (handleSignAndSendTransactionV0WithLookupTable respond p)
                        logs0 w) k = Some e2
        /\ poll_call e2 = Some (Plain, sig, connection p))
  /\ (forall j e wx addr r,
        nth_error (trace_of (handleSignAndSendTransactionV0WithLookupTable respond p)
                     logs0 w) j = Some e ->
        use_call e = Some (wx, addr, r) ->
        exists i i' k e0 e1 e2 w0 w1 sig0 sig,
          i < i' /\ i' < k /\ k < j
          /\ nth_error (trace_of (handleSignAndSendTransactionV0WithLookupTable respond p)
                          logs0 w) i = Some e0
          /\ create_call e0 = Some (w0, inr (sig0, addr))
          /\ nth_error (trace_of (handleSignAndSendTransactionV0WithLookupTable respond p)
                          logs0 w) i' = Some e1
          /\ extend_call e1 = Some (w1, addr, inr sig)
          /\ nth_error (trace_of (handleSignAndSendTransactionV0WithLookupTable respond p)
                          logs0 w) k = Some e2
          /\ poll_call e2 = Some (Plain, sig, connection p))
  /\ (forall j e err,
        nth_error (trace_of (handleSignAndSendTransactionV0WithLookupTable respond p)
                     logs0 w) j = Some e ->
        failure e = Some err ->
        nth_error (trace_of (handleSignAndSendTransactionV0WithLookupTable respond p)
                     logs0 w) (S j)
        = Some (ELog (mkLog error "signAndSendTransactionV0WithLookupTable"
                        (error_message err)))
        /\ nth_error (trace_of (handleSignAndSendTransactionV0WithLookupTable respond p)
                        logs0 w) (S (S j)) = None).
Proof.
  split; [apply extend_follows_create |].
  split; [apply use_follows_extend | apply lookup_table_chain_aborts].
Qed.

Lemma lookup_table_steps_ordered_witness :
  exists i k e1 e2 w1 sig,
    i < k /\ k < 5
    /\ nth_error (trace_of (handleSignAndSendTransactionV0WithLookupTable
                              (scripted all_ok) props0) [] 0) i = Some e1
    /\ create_call e1 = Some (w1, inr (sig, "table1"))
    /\ nth_error (trace_of (handleSignAndSendTransactionV0WithLookupTable
                              (scripted all_ok) props0) [] 0) k = Some e2
    /\ poll_call e2 = Some (Plain, sig, connection props0).
Proof.
  destruct (lookup_table_steps_ordered (scripted all_ok) props0 [] 0) as [Hext _].
  apply (Hext 5 (ECall Awaited 4
                   (extendAddressLookupTable "PubKey1" "https://rpc-devnet"
                      "blockhash" "table1" (Some "sendTransaction"))
                   (inr "sigExtend"))
           4 "table1" (inr "sigExtend"));
    reflexivity.
Defined.

(* ------------------------------------------------------------------------- *)
(** ** Signing a batch *)
(* ------------------------------------------------------------------------- *)

Section SignBatchFacts.

Variable signerCapability : Transaction -> Result SignedTransaction.

Lemma signBatch_accepts (transactions : list Transaction) :
  forall out,
    signBatch signerCapability transactions = inr out ->
    Forall2 (fun tx signed => signerCapability tx = inr signed) transactions out.
Proof.
  induction transactions as [| tx rest IH]; cbn [signBatch]; intros out Hout.
  - injection Hout as <-. constructor.
  - destruct (signerCapability tx) as [e | signed] eqn:Htx; [discriminate |].
    destruct (signBatch signerCapability rest) as [e | signedRest]; [discriminate |].
    injection Hout as <-. constructor; [exact Htx | now apply IH].
Qed.

Lemma signBatch_rejects (transactions : list Transaction) :
  forall tx e,
    In tx transactions -> signerCapability tx = inl e ->
    exists e', signBatch signerCapability transactions = inl e'.
Proof.
  induction transactions as [| tx0 rest IH]; cbn [signBatch In]; intros tx e Hin Hrej.
  - contradiction.
  - destruct (signerCapability tx0) as [e0 | signed] eqn:Htx0; [now exists e0 |].
    destruct Hin as [-> | Hin]; [congruence |].
    destruct (IH tx e Hin Hrej) as [e' ->]. now exists e'.
Qed.

Lemma signBatch_total (transactions : list Transaction) :
  (forall tx, In tx transactions -> exists signed, signerCapability tx = inr signed) ->
  exists out, signBatch signerCapability transactions = inr out.
Proof.
  induction transactions as [| tx rest IH]; cbn [signBatch]; intros Hall.
  - now exists [].
  - destruct (Hall tx (or_introl eq_refl)) as [signed ->].
    destruct IH as [out ->]; [intros tx' Hin; apply Hall; now right |].
    now exists (signed :: out).
Qed.

(** C7.  When [signBatch] returns, its output has the length of the input
    and its i-th member is what the signer made of the i-th input; when
    the signer rejects any member, [signBatch] fails and returns no signed
    transaction at all; when the signer accepts every member, it
    returns. *)
Theorem signBatch_order_and_atomicity (transactions : list Transaction) :
  (forall out,
      signBatch signerCapability transactions = inr out ->
      length out = length transactions
      /\ forall i tx,
           nth_error transactions i = Some tx ->
           exists signed,
             nth_error out i = Some signed /\ signerCapability tx = inr signed)
  /\ (forall tx e,
        In tx transactions -> signerCapability tx = inl e ->
        exists e', signBatch signerCapability transactions = inl e')
  /\ ((forall tx, In tx transactions ->
                  exists signed, signerCapability tx = inr signed) ->
      exists out, signBatch signerCapability transactions = inr out).
Proof.
  split; [| split].
  - intros out Hout. apply signBatch_accepts in Hout.
    induction Hout as [| tx signed rest out' Htx Hrest IH]; cbn [length].
    + split; [reflexivity |]. intros [| i] tx H; discriminate H.
    + destruct IH as [Hlen Hnth]. split; [now rewrite Hlen |].
      intros [| i] tx' H; cbn [nth_error] in *.
      * injection H as <-. now exists signed.
      * now apply Hnth.
  - apply signBatch_rejects.
  - apply signBatch_total.
Qed.

End SignBatchFacts.

Lemma signBatch_order_and_atomicity_witness :
  signBatch (picky_signer "bad") [mkTx "a"; mkTx "b"; mkTx "c"]
  = inr [mkSignedTx "signeda"; mkSignedTx "signedb"; mkSignedTx "signedc"]
  /\ exists e', signBatch (picky_signer "bad") [mkTx "a"; mkTx "bad"; mkTx "c"] = inl e'.
Proof.
  split; [reflexivity |].
  destruct (signBatch_order_and_atomicity (picky_signer "bad")
              [mkTx "a"; mkTx "bad"; mkTx "c"]) as [_ [Hrej _]].
  apply (Hrej (mkTx "bad") (mkError "User rejected the request.")).
  - right. left. reflexivity.
  - reflexivity.
Defined.

(** The sign-all handler against a helper that is [signBatch]: it asks for
    the two transactions in the order it built them, and it logs either the
    two signed transactions in that order or one [error] entry. *)
Lemma handleSignAllTransactions_batch
    (cap : Transaction -> Result SignedTransaction) (p : Props) (n : nat) :
  connected p = true ->
  (exists s0 s1 tx0 tx1,
      cap tx0 = inr s0 /\ cap tx1 = inr s1
      /\ map status (logged (trace_of (handleSignAllTransactions (batch_world cap) p) [] n))
         = [info; success]
      /\ In (ELog (mkLog success "signAllTransactions"
                     ("Transactions signed: "
                      ++ JSON_stringify_array [signed_tx_json s0; signed_tx_json s1])))
            (trace_of (handleSignAllTransactions (batch_world cap) p) [] n))
  \/ map status (logged (trace_of (handleSignAllTransactions (batch_world cap) p) [] n))
     = [info; error].
Proof.
  unfold connected. intros Hconn. unfold_handlers.
  destruct (publicKey p) as [pk |]; [| discriminate].
  destruct (wallet p); [| discriminate].
  cbn [batch_world signBatch app].
  destruct (cap (answer (createTransferTransaction pk (connection p)))) as [e | s0] eqn:Hcap;
    cbn [app logged map status]; [now right |].
  left. exists s0, s0. do 2 eexists.
  split; [exact Hcap | split; [exact Hcap | split; [reflexivity |]]].
  cbn [In]. do 4 right. left. reflexivity.
Qed.

(* ------------------------------------------------------------------------- *)
(** ** Clearing the log *)
(* ------------------------------------------------------------------------- *)

(** X1.  A [clearLogs] queued among calls of [createLog] discards the log and
    every entry pushed before it: what is left is exactly the entries pushed
    after it, in the order of the calls. *)
Theorem clearLogs_resets_queue (before after logs0 : list TLog) :
  processQueue (map createLog before ++ clearLogs :: map createLog after) logs0
  = after.
Proof.
  unfold processQueue. rewrite fold_left_app. cbn [fold_left].
  unfold clearLogs at 1.
  exact (processQueue_createLog after []).
Qed.

(* ------------------------------------------------------------------------- *)
(** ** The table of buttons *)
(* ------------------------------------------------------------------------- *)

(** X2.  In [connectedMethods] a label identifies its handler: looking a
    button up by its label finds the handler of that button.  Every
    use-case is behind exactly one button, except [handleConnect], which is
    behind none (it is passed to the sidebar on its own).  The table of the
    earlier revision is the later table without the transaction
    use-cases, in the same order. *)
Theorem connectedMethods_labels_identify_handlers :
  (forall m, In m connectedMethods ->
             find_method (ConnectedMethods.name m) connectedMethods
             = Some (ConnectedMethods.onClick m))
  /\ (forall u, buttons_of u connectedMethods = if UseCase_eqb u Connect then 0 else 1)
  /\ connectedMethods_rev1
     = filter (fun m => negb (uses_transactions (ConnectedMethods.onClick m)))
              connectedMethods.
Proof.
  split; [| split].
  - intros m Hin. cbn [connectedMethods In] in Hin.
    repeat (destruct Hin as [<- | Hin]; [reflexivity |]). contradiction.
  - intros u. destruct u; reflexivity.
  - reflexivity.
Qed.

(* ------------------------------------------------------------------------- *)
(** ** The dependency arrays *)
(* ------------------------------------------------------------------------- *)

(** X3.  For the eight handlers whose [useCallback] array names only props
    and [createLog], the array is complete in the props it lists: two
    renders that agree on every prop of a handler's array give handlers
    that behave alike from every state.  The arrays of [handleConnect] and
    [handleDisconnect] also name [connect] and [disconnect], which are not
    compared here, and nothing is stated for them. *)
Theorem handler_depends_only_on_deps
    (W : Type) (respond : forall R : Type, Call R -> W -> Result R * W)
    (u : UseCase) (p1 p2 : Props) (s : State W) :
  deps_are_props u = true ->
  Forall (same_dep p1 p2) (deps u) ->
  handler respond u p1 s = handler respond u p2 s.
Proof.
  intros Hprops Hdeps.
  destruct p1 as [wl1 pk1 sm1 si1 st1 sa1 se1 cn1].
  destruct p2 as [wl2 pk2 sm2 si2 st2 sa2 se2 cn2].
  destruct u; try discriminate Hprops; cbn [deps] in Hdeps;
    repeat match goal with
           | H : Forall _ (_ :: _) |- _ =>
               apply Forall_cons_iff in H; destruct H as [? H]
           end;
    cbn [same_dep publicKey wallet signMsg siws signTx signAllTx sendTx connection] in *;
    subst; reflexivity.
Qed.

Lemma handler_depends_only_on_deps_witness :
  handler (scripted all_ok) SignMessage props0 (mkState [] [] 0)
  = handler (scripted all_ok) SignMessage
      (mkProps (Some "Phantom") (Some "PubKey1") (Some "signMessage") None None None
         None "https://other-rpc")
      (mkState [] [] 0).
Proof.
  apply (@handler_depends_only_on_deps nat (scripted all_ok) SignMessage props0
           (mkProps (Some "Phantom") (Some "PubKey1") (Some "signMessage") None None None
              None "https://other-rpc")
           (mkState [] [] 0)).
  - reflexivity.
  - repeat constructor.
Defined.

(* ------------------------------------------------------------------------- *)
(** ** The connect effect *)
(* ------------------------------------------------------------------------- *)

(** X4.  The connect effect makes no call and never throws.  It appends one
    [success] entry of method 'connect' that names the account when both
    [publicKey] and [wallet] are present, the condition under which the
    handlers act, and leaves the log as it was otherwise. *)
Theorem useEffect_connect_logs_when_connected
    (W : Type) (p : Props) (logs0 : list TLog) (w : W) :
  run (useEffect_connect p) logs0 w
  = (inr tt,
     mkState (logs0 ++ logged (trace_of (useEffect_connect p) logs0 w))%list
             (trace_of (useEffect_connect p) logs0 w) w)
  /\ Forall (fun e => is_call_event e = false) (trace_of (useEffect_connect p) logs0 w)
  /\ (connected p = true ->
      exists pk, publicKey p = Some pk
                 /\ logged (trace_of (useEffect_connect p) logs0 w)
                    = [mkLog success "connect" ("Connected to account " ++ pk)])
  /\ (connected p = false -> logged (trace_of (useEffect_connect p) logs0 w) = []).
Proof.
  unfold connected, trace_of, run, useEffect_connect.
  destruct (publicKey p) as [pk |]; [destruct (wallet p) |];
    cbn; rewrite ?app_nil_r;
    (split; [reflexivity | split; [repeat constructor | split]]);
    intros H; try discriminate H; try reflexivity.
  exists pk. split; reflexivity.
Qed.

(* ------------------------------------------------------------------------- *)
(** ** What the handlers pass on *)
(* ------------------------------------------------------------------------- *)

(** X5.  In the lookup-table use-case every step is given a blockhash of its
    own: the blockhash passed to the create, the extend and the using step
    is the one returned by the [getLatestBlockhash] call made immediately
    before that step. *)
Theorem lookup_table_blockhash_is_fresh
    (W : Type) (respond : forall R : Type, Call R -> W -> Result R * W)
    (p : Props) (logs0 : list TLog) (w : W)
    (j : nat) (e : Event W) (bh : Blockhash) :
  nth_error (trace_of (handleSignAndSendTransactionV0WithLookupTable respond p)
               logs0 w) j = Some e ->
  blockhash_used e = Some bh ->
  exists j0 e0,
    j = S j0
    /\ nth_error (trace_of (handleSignAndSendTransactionV0WithLookupTable respond p)
                    logs0 w) j0 = Some e0
    /\ blockhash_fetched e0 = Some bh.
Proof.
  revert j e bh.
  unfold_handlers; (destruct (publicKey p); [destruct (wallet p) |]);
    step_all;
    intros j ev bh Hnth Hused;
    try (destruct j; discriminate Hnth);
    nth_cases Hnth j; cbn in Hused; try discriminate Hused;
    injection Hused as <-;
    eexists; eexists; (split; [reflexivity | split; reflexivity]).
Qed.

Lemma lookup_table_blockhash_is_fresh_witness :
  exists j0 e0,
    5 = S j0
    /\ nth_error (trace_of (handleSignAndSendTransactionV0WithLookupTable
                              (scripted all_ok) props0) [] 0) j0 = Some e0
    /\ blockhash_fetched e0 = Some "blockhash".
Proof.
  apply (@lookup_table_blockhash_is_fresh nat (scripted all_ok) props0 [] 0 5
           (ECall Awaited 4
              (extendAddressLookupTable "PubKey1" "https://rpc-devnet"
                 "blockhash" "table1" (Some "sendTransaction"))
              (inr "sigExtend"))
           "blockhash");
    reflexivity.
Defined.

(** X6.  Whatever a handler puts before the signer is exactly what it has
    built so far: at every dispatch, the transactions passed to the signing
    helper are the transactions returned by the building calls made before
    it, in the order they were built (one for the transfers and the
    sign-only use-case, two for sign-all, none elsewhere). *)
Theorem dispatch_carries_what_was_built
    (W : Type) (respond : forall R : Type, Call R -> W -> Result R * W)
    (u : UseCase) (p : Props) (logs0 : list TLog) (w : W)
    (j : nat) (e : Event W) :
  nth_error (trace_of (handler respond u p) logs0 w) j = Some e ->
  is_dispatch_event e = true ->
  dispatched_transactions e
  = built_transactions (firstn j (trace_of (handler respond u p) logs0 w)).
Proof.
  revert j e.
  destruct u; unfold_handlers;
    (destruct (publicKey p); [destruct (wallet p) |]);
    step_all;
    intros j ev Hnth Hd;
    try (destruct j; discriminate Hnth);
    nth_cases Hnth j; cbn in Hd; try discriminate Hd;
    reflexivity.
Qed.

Lemma dispatch_carries_what_was_built_witness :
  dispatched_transactions
    (ECall Awaited 2
       (signAllTransactions (mkTx "{transfer:PubKey1}") (mkTx "{transfer:PubKey1}")
          (Some "signAllTransactions"))
       (inr [mkSignedTx "signed{transfer:PubKey1}"; mkSignedTx "signed{transfer:PubKey1}"]))
  = built_transactions
      (firstn 3 (trace_of (handler (scripted all_ok) SignAllTransactions props0) [] 0)).
Proof.
  apply (@dispatch_carries_what_was_built nat (scripted all_ok) SignAllTransactions
           props0 [] 0 3); reflexivity.
Defined.

(** X7.  [autoSignIn] verifies what was signed: whenever it calls
    [verifySignIn], the input it passes is the challenge [createSignInData]
    returned and the output is what [adapter.signIn], called on that same
    adapter with that same challenge, returned. *)
Theorem autoSignIn_verifies_what_was_signed
    (W : Type) (respond : forall R : Type, Call R -> W -> Result R * W)
    (adapter : Adapter) (logs0 : list TLog) (w : W)
    (j : nat) (e : Event W) (input : SolanaSignInInput) (output : SolanaSignInOutput) :
  nth_error (trace_of (autoSignIn respond adapter) logs0 w) j = Some e ->
  verify_args e = Some (input, output) ->
  exists e0 e1,
    j = 2
    /\ nth_error (trace_of (autoSignIn respond adapter) logs0 w) 0 = Some e0
    /\ challenge_created e0 = Some (false, input)
    /\ nth_error (trace_of (autoSignIn respond adapter) logs0 w) 1 = Some e1
    /\ adapter_signIn_call e1 = Some (adapter, input, inr output).
Proof.
  revert j e input output.
  unfold_handlers. destruct (has_signIn adapter); cbn [negb].
  2: { intros [| j] e input output H; discriminate H. }
  step_all;
    try match goal with |- context [negb ?b] => destruct b; cbn [negb] end;
    intros j ev input output Hnth Hv;
    nth_cases Hnth j; cbn in Hv; try discriminate Hv;
    injection Hv as <- <-;
    eexists; eexists;
    (split; [reflexivity | split; [reflexivity | split; [reflexivity | split; reflexivity]]]).
Qed.

Lemma autoSignIn_verifies_what_was_signed_witness :
  exists e0 e1,
    2 = 2
    /\ nth_error (trace_of (autoSignIn (scripted all_ok) (mkAdapter "Phantom" true)) [] 0) 0
       = Some e0
    /\ challenge_created e0 = Some (false, mkSignInInput "{domain:dapp}")
    /\ nth_error (trace_of (autoSignIn (scripted all_ok) (mkAdapter "Phantom" true)) [] 0) 1
       = Some e1
    /\ adapter_signIn_call e1
       = Some (mkAdapter "Phantom" true, mkSignInInput "{domain:dapp}",
               inr (mkSignInOutput (mkAccount "acct") [x68; x69] [x01; x02])).
Proof.
  apply (@autoSignIn_verifies_what_was_signed nat (scripted all_ok)
           (mkAdapter "Phantom" true) [] 0 2
           (ECall Plain 2
              (verifySignIn (mkSignInInput "{domain:dapp}")
                 (mkSignInOutput (mkAccount "acct") [x68; x69] [x01; x02]))
              (inr true)));
    reflexivity.
Defined.

(** X8.  Both sign-in use-cases hand the [signIn] helper the challenge they
    created in their first step, together with the wallet's [signIn]
    capability: [handleSignIn] the one made by [createSignInData],
    [handleSignInError] the one made by [createSignInErrorData]; no other
    use-case calls the helper. *)
Theorem signIn_receives_the_challenge
    (W : Type) (respond : forall R : Type, Call R -> W -> Result R * W)
    (u : UseCase) (p : Props) (logs0 : list TLog) (w : W)
    (j : nat) (e : Event W) (data : SolanaSignInInput) (cap : Capability) :
  nth_error (trace_of (handler respond u p) logs0 w) j = Some e ->
  signIn_call e = Some (data, cap) ->
  cap = siws p
  /\ (u = SignIn \/ u = SignInError)
  /\ j = 1
  /\ exists e0,
       nth_error (trace_of (handler respond u p) logs0 w) 0 = Some e0
       /\ challenge_created e0 = Some (UseCase_eqb u SignInError, data).
Proof.
  revert j e data cap.
  destruct u; unfold_handlers;
    (destruct (publicKey p); [destruct (wallet p) |]);
    step_all;
    intros j ev data cap Hnth Hs;
    try (destruct j; discriminate Hnth);
    nth_cases Hnth j; cbn in Hs; try discriminate Hs;
    injection Hs as <- <-;
    (split; [reflexivity | split; [tauto | split; [reflexivity |]]]);
    eexists; split; reflexivity.
Qed.

Lemma signIn_receives_the_challenge_witness :
  Some "signIn" = siws props0
  /\ (SignInError = SignIn \/ SignInError = SignInError)
  /\ 1 = 1
  /\ exists e0,
       nth_error (trace_of (handler (scripted all_ok) SignInError props0) [] 0) 0 = Some e0
       /\ challenge_created e0
          = Some (UseCase_eqb SignInError SignInError, mkSignInInput "{domain:wrong}").
Proof.
  apply (@signIn_receives_the_challenge nat (scripted all_ok) SignInError props0 [] 0 1
           (ECall Awaited 1
              (signIn (mkSignInInput "{domain:wrong}") (Some "signIn"))
              (inr (mkSignInOutput (mkAccount "acct") [x68; x69] [x01; x02]))));
    reflexivity.
Defined.

(* ------------------------------------------------------------------------- *)
(** ** What the handlers never do *)
(* ------------------------------------------------------------------------- *)

(** X9.  A handler stops at the first call that throws.  Either that call is
    the challenge step of a sign-in use-case, nothing follows it and the
    error is thrown on; or the one event that follows it is an [error] entry
    with the message of the error, and the handler returns.  In both cases
    no further call is made. *)
Theorem first_failure_ends_the_handler
    (W : Type) (respond : forall R : Type, Call R -> W -> Result R * W)
    (u : UseCase) (p : Props) (logs0 : list TLog) (w : W)
    (j : nat) (e : Event W) (err : Error) :
  nth_error (trace_of (handler respond u p) logs0 w) j = Some e ->
  failure e = Some err ->
  nth_error (trace_of (handler respond u p) logs0 w) (S (S j)) = None
  /\ ((nth_error (trace_of (handler respond u p) logs0 w) (S j) = None
       /\ j = 0
       /\ outcome (handler respond u p) logs0 w = inl err
       /\ exists c, challenge u = Some c)
      \/ (outcome (handler respond u p) logs0 w = inr tt
          /\ exists l,
               nth_error (trace_of (handler respond u p) logs0 w) (S j) = Some (ELog l)
               /\ status l = error
               /\ message l = error_message err)).
Proof.
  revert j e err.
  destruct u; unfold_handlers;
    (destruct (publicKey p); [destruct (wallet p) |]);
    step_all;
    intros j ev er Hnth Hf;
    try (destruct j; discriminate Hnth);
    nth_cases Hnth j; cbn in Hf; try discriminate Hf;
    injection Hf as <-;
    (split; [reflexivity |]);
    first [ right; split; [reflexivity |]; eexists;
            split; [reflexivity | split; reflexivity]
          | left; repeat split; eexists; reflexivity ].
Qed.

Lemma first_failure_ends_the_handler_witness :
  nth_error (trace_of (handler (scripted (failing 1)) SignAndSendTransaction props0) [] 0) 4
  = None
  /\ ((nth_error (trace_of (handler (scripted (failing 1)) SignAndSendTransaction props0)
                    [] 0) 3 = None
       /\ 2 = 0
       /\ outcome (handler (scripted (failing 1)) SignAndSendTransaction props0) [] 0
          = inl (mkError "User rejected the request.")
       /\ exists c, challenge SignAndSendTransaction = Some c)
      \/ (outcome (handler (scripted (failing 1)) SignAndSendTransaction props0) [] 0
          = inr tt
          /\ exists l,
               nth_error (trace_of (handler (scripted (failing 1))
                                      SignAndSendTransaction props0) [] 0) 3
               = Some (ELog l)
               /\ status l = error
               /\ message l = error_message (mkError "User rejected the request."))).
Proof.
  apply (@first_failure_ends_the_handler nat (scripted (failing 1))
           SignAndSendTransaction props0 [] 0 2
           (ECall Awaited 1
              (signAndSendTransaction (mkTx "{transfer:PubKey1}") "https://rpc-devnet"
                 (Some "sendTransaction"))
              (inl (mkError "User rejected the request."))));
    reflexivity.
Defined.

(** X10.  The use-cases that only sign (sign transaction, sign all, sign
    message, sign in, sign in error) and the two lifecycle ones never submit
    a transaction, never start polling and never fetch a blockhash; and
    [connect] and [disconnect] are called by no handler but [handleConnect]
    and [handleDisconnect]. *)
Theorem sign_only_never_submits
    (W : Type) (respond : forall R : Type, Call R -> W -> Result R * W)
    (u : UseCase) (p : Props) (logs0 : list TLog) (w : W) :
  (submitting u = false ->
   forall e, In e (trace_of (handler respond u p) logs0 w) ->
             is_submit_event e = false /\ is_poll e = false
             /\ blockhash_fetched e = None)
  /\ (forall e, In e (trace_of (handler respond u p) logs0 w) ->
                is_lifecycle_call e = true ->
                u = Connect \/ u = Disconnect).
Proof.
  destruct u; unfold_handlers;
    (destruct (publicKey p); [destruct (wallet p) |]);
    step_all;
    (split;
     [ intros Hs; try discriminate Hs; intros ev Hin; in_cases Hin;
       repeat split; reflexivity
     | intros ev Hin Hl; in_cases Hin; try discriminate Hl; tauto ]).
Qed.

(** X11.  The receipts a handler gives to [pollSignatureStatus] are the
    receipts its submitting calls returned, each once and in the order they
    were returned: no receipt is left unpolled, none is polled twice, and
    nothing else is polled. *)
Theorem every_receipt_is_polled_once
    (W : Type) (respond : forall R : Type, Call R -> W -> Result R * W)
    (u : UseCase) (p : Props) (logs0 : list TLog) (w : W) :
  polled (trace_of (handler respond u p) logs0 w)
  = receipts (trace_of (handler respond u p) logs0 w).
Proof.
  destruct u; unfold_handlers;
    (destruct (publicKey p); [destruct (wallet p) |]);
    step_all; reflexivity.
Qed.

(** X12.  A handler never reads the log: from two different logs, in the
    same world, it makes the same calls, appends the same entries, ends
    with the same outcome and leaves the world in the same state. *)
Theorem handler_ignores_prior_log
    (W : Type) (respond : forall R : Type, Call R -> W -> Result R * W)
    (u : UseCase) (p : Props) (logs1 logs2 : list TLog) (w : W) :
  trace_of (handler respond u p) logs1 w = trace_of (handler respond u p) logs2 w
  /\ outcome (handler respond u p) logs1 w = outcome (handler respond u p) logs2 w
  /\ world (snd (run (handler respond u p) logs1 w))
     = world (snd (run (handler respond u p) logs2 w)).
Proof.
  destruct u; unfold_handlers;
    (destruct (publicKey p); [destruct (wallet p) |]);
    step_all; repeat split; reflexivity.
Qed.

(** X13.  [handleSignMessage] never throws, and the value it gives back is
    the signed message exactly when the [signMessage] helper returned one:
    it is [undefined] when the wallet is not connected and when the helper
    threw. *)
Theorem handleSignMessage_returns_the_signature
    (W : Type) (respond : forall R : Type, Call R -> W -> Result R * W)
    (p : Props) (logs0 : list TLog) (w : W) :
  exists r,
    outcome (handleSignMessage respond p) logs0 w = inr r
    /\ forall s,
         r = Some s
         <-> exists e, In e (trace_of (handleSignMessage respond p) logs0 w)
                       /\ signMessage_result e = Some (inr s).
Proof.
  unfold_handlers;
    (destruct (publicKey p); [destruct (wallet p) |]);
    step_all; eexists; (split; [reflexivity |]); intros s; split.
  all: try discriminate.
  all: try (intros (ev & Hin & Hr); in_cases Hin; try discriminate Hr;
            injection Hr as <-; reflexivity).
  intros Hs. injection Hs as <-.
  eexists. split; [left; reflexivity | reflexivity].
Qed.

(** X14.  Which statuses a use-case writes.  A handler that submits never
    writes a [success] entry of its own (the final status of a submission
    is left to the poller); [info] entries are written only by the
    use-cases that build or submit a transaction; [warning] entries only by
    the disconnect use-case; and [handleConnect] writes nothing but
    [error] entries. *)
Theorem status_by_use_case
    (W : Type) (respond : forall R : Type, Call R -> W -> Result R * W)
    (u : UseCase) (p : Props) (logs0 : list TLog) (w : W) (l : TLog) :
  In l (logged (trace_of (handler respond u p) logs0 w)) ->
  (status l = success -> submitting u = false)
  /\ (status l = info -> uses_transactions u = true)
  /\ (status l = warning -> u = Disconnect)
  /\ (u = Connect -> status l = error).
Proof.
  destruct u; unfold_handlers;
    (destruct (publicKey p); [destruct (wallet p) |]);
    step_all; cbn [logged]; intros Hin;
    in_cases Hin;
    repeat split; intros H; try discriminate H; reflexivity.
Qed.

Lemma status_by_use_case_witness :
  (status (mkLog warning "disconnect" (string_of_list_byte [xf0; x9f; x91; x8b])) = success
   -> submitting Disconnect = false)
  /\ (status (mkLog warning "disconnect" (string_of_list_byte [xf0; x9f; x91; x8b])) = info
      -> uses_transactions Disconnect = true)
  /\ (status (mkLog warning "disconnect" (string_of_list_byte [xf0; x9f; x91; x8b])) = warning
      -> Disconnect = Disconnect)
  /\ (Disconnect = Connect
      -> status (mkLog warning "disconnect" (string_of_list_byte [xf0; x9f; x91; x8b]))
         = error).
Proof.
  apply (@status_by_use_case nat (scripted all_ok) Disconnect props0 [] 0).
  left. reflexivity.
Defined.

(* ------------------------------------------------------------------------- *)
(** ** A run of the lemma on the method field *)
(* ------------------------------------------------------------------------- *)

Lemma entries_carry_method_name_witness :
  Forall (fun l => method l = "signAndSendTransactionV0WithLookupTable")
         (logged (trace_of (handler (scripted (failing 4))
                              SignAndSendTransactionV0WithLookupTable props0) [] 0)).
Proof.
  apply (@entries_carry_method_name nat (scripted (failing 4))
           SignAndSendTransactionV0WithLookupTable
           "signAndSendTransactionV0WithLookupTable" props0 [] 0).
  reflexivity.
Defined.


(** X15.  A handler acts exactly when the wallet is connected: its trace is
    empty if and only if [publicKey] or [wallet] is absent, and when both
    are present its first step is a call that leaves the component, never a
    log entry. *)
Theorem handler_acts_iff_connected
    (W : Type) (respond : forall R : Type, Call R -> W -> Result R * W)
    (u : UseCase) (p : Props) (logs0 : list TLog) (w : W) :
  (trace_of (handler respond u p) logs0 w = [] <-> connected p = false)
  /\ (connected p = true ->
      exists e, nth_error (trace_of (handler respond u p) logs0 w) 0 = Some e
                /\ is_call_event e = true).
Proof.
  unfold connected.
  destruct u; unfold_handlers;
    (destruct (publicKey p); [destruct (wallet p) |]);
    try (split; [split; reflexivity | discriminate]);
    step_all;
    (split; [split; discriminate | intros _; eexists; split; reflexivity]).
Qed.
